(** * MMM-WmataBusSchedule: the node helper, embedded and verified

    A shallow embedding of [node_helper.js]: the schedule gate
    [shouldWeFetchCommuteData], the three fetch operations [fetchNextBus],
    [fetchStopSchedule] and [fetchTimeToWork], and the entry point
    [socketNotificationReceived].

    The helper talks to three things it does not own: the wall clock (through
    moment), the network (through axios) and the host (through
    [sendSocketNotification] and [console.log]).  The clock and the network
    are inputs, gathered in a [World]; what the helper does to the host and to
    the network is recorded, in order, in a trace of [Event]s. *)

From Stdlib Require Import ZArith List String Ascii Bool Lia.
Import ListNotations.

Open Scope string_scope.
Open Scope list_scope.
Open Scope Z_scope.

Set Warnings "-register-all".

(** ** Data model *)

(** A response body.  axios hands the helper the decoded JSON document; the
    helper only passes it on. *)
Inductive Json : Type :=
| JNull
| JBool (b : bool)
| JNum (n : Z)
| JStr (s : string)
| JArr (items : list Json)
| JObj (fields : list (string * Json)).

(** A coordinate is kept as the text that a template literal interpolates for
    it (the source only ever uses coordinates inside [`${lat},${lon}`]). *)
Definition Coord : Type := string.

Record Home : Type := { home_lat : Coord; home_lon : Coord }.

Module Destination.
Record t : Type := mk { name : string; lat : Coord; lon : Coord }.
End Destination.

(** [places]: both of its keys may be missing from the object. *)
Record Places : Type :=
  { home : option Home; destinations : option (list Destination.t) }.

Record Times : Type := { start : string; stop : string }.

Record Schedule : Type := { times : Times; days : list Z }.

(** The configuration object.  [schedule] and [places] are keys that a
    configuration may lack.  The source tests the presence of the first
    (['schedule' in config]); it reads the second, and the [home] and
    [destinations] inside it, without a test, so a missing one makes the read
    of its property throw a TypeError. *)
Record Config : Type :=
  { busStopId : string;
    wmataApiKey : string;
    googleApiKey : string;
    schedule : option Schedule;
    places : option Places }.


(** The object handed to [axios]. *)
Record AxiosConfig : Type :=
  { method : string; url : string; params : list (string * string) }.

(** What axios resolves with: only the two keys the source reads. *)
Module Response.
Record t : Type := mk { status : Z; data : Json }.
End Response.

(** The object a fetch operation returns.  The source builds it as an object
    literal with a different set of keys on each branch; a key that the
    literal does not have is [None] here. *)
Module FetchResult.
Record t : Type :=
  mk { data : option Json;
       name : option string;
       processor : option string;
       success : bool;
       status : option Z }.

(** [success: true] together with a [data] key and no [status] key. *)
Definition isSuccessRecord (r : t) : bool :=
  success r
  && match data r with Some _ => true | None => false end
  && match status r with Some _ => false | None => true end.

(** [success: false] together with a [status] key and no [data] key. *)
Definition isFailureRecord (r : t) : bool :=
  negb (success r)
  && match status r with Some _ => true | None => false end
  && match data r with Some _ => false | None => true end.
End FetchResult.

(** What can be thrown in the helper: an error of axios when no response
    came back, the error of axios for a response whose status it refuses, and
    the TypeError of reading [property] from a missing value. *)
Inductive JsError : Type :=
| TransportError (message : string)
| StatusError (response : Response.t)
| TypeError (property : string).

(** ** moment

    The part of moment the helper uses.  An instant is a count of
    milliseconds of local wall-clock time since 1970-01-01 00:00 local, a
    Thursday.  The local clock is taken to run evenly: a day on which the
    clock is put forward or back (daylight saving), with its skipped or
    repeated hour, is outside the model. *)
Module Moment.

Definition msPerMinute : Z := 60000.
Definition msPerHour : Z := 3600000.
Definition msPerDay : Z := 86400000.

(** A moment object: a valid instant, or the invalid moment that a failed
    parse yields. *)
Inductive t : Type :=
| Invalid
| At (ms : Z).

Definition startOfDay (ms : Z) : Z := msPerDay * (ms / msPerDay).

(** Milliseconds elapsed since local midnight. *)
Definition timeOfDay (ms : Z) : Z := ms mod msPerDay.

(** [.day()]: 0 is Sunday, 6 is Saturday. *)
Definition day (ms : Z) : Z := (ms / msPerDay + 4) mod 7.

(** [.minute()]: minute of the hour. *)
Definition minute (ms : Z) : Z := (ms / msPerMinute) mod 60.

Definition digit (c : ascii) : option Z :=
  let n := Z.of_nat (nat_of_ascii c) in
  if (48 <=? n) && (n <=? 57) then Some (n - 48) else None.

(** A token [HH] or [mm] of the format, as moment reads it when it is not in
    strict mode: the first run of one or two digits anywhere in the text
    (the regular expression [\d\d?], not anchored); what comes before it is
    skipped.  The result is the number and the text after it. *)
Fixpoint oneOrTwoDigits (s : string) : option (Z * string) :=
  match s with
  | EmptyString => None
  | String c rest =>
      match digit c with
      | Some d1 =>
          match rest with
          | String c2 rest2 =>
              match digit c2 with
              | Some d2 => Some (10 * d1 + d2, rest2)
              | None => Some (d1, rest)
              end
          | EmptyString => Some (d1, rest)
          end
      | None => oneOrTwoDigits rest
      end
  end.

(** The text after the first occurrence of the character [c]. *)
Fixpoint afterFirst (c : ascii) (s : string) : option string :=
  match s with
  | EmptyString => None
  | String x rest => if Ascii.eqb x c then Some rest else afterFirst c rest
  end.

(** A literal character of the format (the colon, the space): the text moves
    past its first occurrence, and stays where it is when there is none. *)
Definition skipLiteral (c : ascii) (s : string) : string :=
  match afterFirst c s with
  | Some rest => rest
  | None => s
  end.

(** The token [a]: the first letter a or p of the text, in either case
    (the regular expression [[ap]\.?m?\.?] without regard to case); [true]
    stands for pm. *)
Fixpoint meridiem (s : string) : option bool :=
  match s with
  | EmptyString => None
  | String x rest =>
      if Ascii.eqb x "a"%char || Ascii.eqb x "A"%char then Some false
      else if Ascii.eqb x "p"%char || Ascii.eqb x "P"%char then Some true
      else meridiem rest
  end.

(** The hour once the meridiem is taken into account: an hour below 12 with
    pm is moved to the afternoon, hour 12 with am is midnight. *)
Definition meridiemFix (mer : option bool) (h : Z) : Z :=
  match mer with
  | None => h
  | Some true => if h <? 12 then h + 12 else h
  | Some false => if h =? 12 then 0 else h
  end.

(** The hour and minute that [moment(s, 'HH:mm a')] reads in the text [s].
    The format is the token list [HH], [:], [mm], the space, [a]; each token
    is looked for in what the tokens before it left of the text.  A minute
    that is not found is 0; a text in which no hour is found gives an invalid
    moment ([None]).  So "08:00", "8:00" and "0800" are all eight o'clock and
    "08:00 pm" is twenty o'clock. *)
Definition hourMinute (s : string) : option (Z * Z) :=
  match oneOrTwoDigits s with
  | None => None
  | Some (h, afterHour) =>
      let afterColon := skipLiteral ":"%char afterHour in
      let (m, afterMinute) :=
        match oneOrTwoDigits afterColon with
        | Some found => found
        | None => (0, afterColon)
        end in
      let afterSpace := skipLiteral " "%char afterMinute in
      Some (meridiemFix (meridiem afterSpace) h, m)
  end.

(** moment's overflow check on the parsed hour and minute: the hour may be
    24 only at 24:00. *)
Definition overflow (h m : Z) : bool :=
  (24 <? h) || ((h =? 24) && negb (m =? 0)) || (59 <? m).

(** The offset from local midnight that a time text denotes, when it denotes
    one. *)
Definition clockOffset (s : string) : option Z :=
  match hourMinute s with
  | Some (h, m) =>
      if overflow h m then None
      else Some (h * msPerHour + m * msPerMinute)
  | None => None
  end.

(** [moment(s, 'HH:mm a')] evaluated when the clock reads [clock]: today's
    date at the hour and minute read in the text, seconds and milliseconds
    zero (24:00 being the midnight that ends today); the invalid moment when
    no time is read or the hour or minute overflows. *)
Definition parse (clock : Z) (s : string) : t :=
  match clockOffset s with
  | Some off => At (startOfDay clock + off)
  | None => Invalid
  end.

(** [m.isBetween(a, b)] with no unit and no inclusivity argument: both ends
    are excluded (moment's default ["()"]), the comparison is on
    milliseconds, and an invalid operand gives [false]. *)
Definition isBetween (m a b : t) : bool :=
  match m, a, b with
  | At x, At lo, At hi => (lo <? x) && (x <? hi)
  | _, _, _ => false
  end.

End Moment.

(** [Array.prototype.includes] on an array of numbers. *)
Definition includes (xs : list Z) (x : Z) : bool := existsb (Z.eqb x) xs.

(** ** The schedule gate *)

(** [now] is the reading of the wall clock during the call.  The source reads
    the clock three times in a row (twice inside the parses, for today's date,
    and once for [now]); the three readings are taken to be one instant. *)
Definition shouldWeFetchCommuteData (now : Z) (config : Config) : bool :=
  let shouldFetch := false in
  match schedule config with
  | Some sch =>
      let startTime := Moment.parse now (start (times sch)) in
      let endTime := Moment.parse now (stop (times sch)) in
      if includes (days sch) (Moment.day now)
         && Moment.isBetween (Moment.At now) startTime endTime
      then true
      else shouldFetch
  | None =>
      (* No schedule means fire all the time. *)
      true
  end.

(** ** Promises

    A promise is described by how it ends: fulfilled with a value, rejected
    with an error, or never settled (a call that hangs).  [latency] is the
    time it takes to settle; it only serves to tell which of several
    rejections comes first. *)
Module Promise.

Inductive state (A : Type) : Type :=
| Fulfilled (v : A)
| Rejected (e : JsError)
| Pending.
Arguments Fulfilled {A} v.
Arguments Rejected {A} e.
Arguments Pending {A}.

Record t (A : Type) : Type := mk { latency : nat; settled : state A }.
Arguments mk {A} latency settled.
Arguments latency {A}.
Arguments settled {A}.

(** The rest of an [async] function after its single [await]: it runs on
    the awaited value, and a rejection or a hang of the awaited promise is
    that of the function's own promise. *)
Definition andThen {A B : Type} (p : t A) (k : A -> B) : t B :=
  match settled p with
  | Fulfilled v => mk (latency p) (Fulfilled (k v))
  | Rejected e => mk (latency p) (Rejected e)
  | Pending => mk (latency p) Pending
  end.

(** The rejection that happens first; of two at the same time, the one of
    the promise that comes first in the array. *)
Fixpoint firstRejection {A : Type} (ps : list (t A)) : option (nat * JsError) :=
  match ps with
  | [] => None
  | p :: rest =>
      match settled p, firstRejection rest with
      | Rejected e, Some (n, e') =>
          if (latency p <=? n)%nat then Some (latency p, e) else Some (n, e')
      | Rejected e, None => Some (latency p, e)
      | _, later => later
      end
  end.

(** The values of the promises, in the order of the array, when every one
    of them is fulfilled. *)
Fixpoint values {A : Type} (ps : list (t A)) : option (list A) :=
  match ps with
  | [] => Some []
  | p :: rest =>
      match settled p, values rest with
      | Fulfilled v, Some vs => Some (v :: vs)
      | _, _ => None
      end
  end.

Definition lastLatency {A : Type} (ps : list (t A)) : nat :=
  fold_right (fun p n => Nat.max (latency p) n) 0%nat ps.

(** [Promise.all]: rejected as soon as one promise is rejected, with that
    promise's error; otherwise fulfilled, once all are, with the values in
    the order of the array; otherwise never settled. *)
Definition all {A : Type} (ps : list (t A)) : t (list A) :=
  match firstRejection ps with
  | Some (n, e) => mk n (Rejected e)
  | None =>
      match values ps with
      | Some vs => mk (lastLatency ps) (Fulfilled vs)
      | None => mk 0%nat Pending
      end
  end.

End Promise.

(** ** The world and the trace *)

(** The inputs of one invocation: the wall clock, and for the [k]-th call to
    axios (counted from 0) with a given request, what comes back from the
    server: a response, whatever its status; an error of the transport; or
    nothing, ever.  An invocation has no [await] before its last clock
    reading, so one reading stands for all of them. *)
Record World : Type :=
  { clock : Z;
    server : nat -> AxiosConfig -> Promise.t Response.t }.

(** axios' default [validateStatus]; the source passes none of its own. *)
Definition validateStatus (status : Z) : bool :=
  (200 <=? status) && (status <? 300).

(** The test of axios' [settle],
    [!response.status || !validateStatus || validateStatus(response.status)]:
    a response passes when it has no status (0) or when its status is
    accepted. *)
Definition passes (status : Z) : bool :=
  (status =? 0) || validateStatus status.

(** How axios settles its promise from what came back: a response that
    passes fulfils it, any other response rejects it with an error that
    carries the response, a transport error rejects it.  The promise settles
    after the moment of the call, hence the successor. *)
Definition settle (back : Promise.t Response.t) : Promise.t Response.t :=
  match Promise.settled back with
  | Promise.Fulfilled response =>
      if passes (Response.status response)
      then Promise.mk (S (Promise.latency back)) (Promise.Fulfilled response)
      else Promise.mk (S (Promise.latency back))
             (Promise.Rejected (StatusError response))
  | Promise.Rejected e =>
      Promise.mk (S (Promise.latency back)) (Promise.Rejected e)
  | Promise.Pending => Promise.mk (S (Promise.latency back)) Promise.Pending
  end.

(** How the [k]-th call to axios ends. *)
Definition network (w : World) (k : nat) (request : AxiosConfig)
    : Promise.t Response.t :=
  settle (server w k request).

Inductive Logged : Type :=
| LogText (s : string)
| LogError (e : JsError).

(** The second argument of [sendSocketNotification]: one fetch result
    (a stop schedule) or an array of them (a commute). *)
Inductive Payload : Type :=
| One (r : FetchResult.t)
| Many (rs : list FetchResult.t).

Inductive Event : Type :=
| HttpGet (request : AxiosConfig)
| ConsoleLog (entry : Logged)
| SocketNotification (notification : string) (payload : option Payload).

Definition Trace : Type := list Event.

(** The requests sent so far, oldest first. *)
Fixpoint requestsOf (tr : Trace) : list AxiosConfig :=
  match tr with
  | [] => []
  | HttpGet r :: rest => r :: requestsOf rest
  | _ :: rest => requestsOf rest
  end.

(** The notifications sent to the module so far, oldest first. *)
Fixpoint notificationsOf (tr : Trace) : list (string * option Payload) :=
  match tr with
  | [] => []
  | SocketNotification n p :: rest => (n, p) :: notificationsOf rest
  | _ :: rest => notificationsOf rest
  end.

(** What was written to the console so far, oldest first. *)
Fixpoint logsOf (tr : Trace) : list Logged :=
  match tr with
  | [] => []
  | ConsoleLog l :: rest => l :: logsOf rest
  | _ :: rest => logsOf rest
  end.

(** ** The helper's effects

    A computation reads the world, extends the trace, and ends in one of
    three ways: it returns a value, it throws an exception that nothing
    catches, or it stays suspended for ever on a promise that never
    settles. *)
Inductive Completion (A : Type) : Type :=
| Returned (a : A)
| Threw (e : JsError)
| Suspended.
Arguments Returned {A} a.
Arguments Threw {A} e.
Arguments Suspended {A}.

Definition M (A : Type) : Type := World -> Trace -> Completion A * Trace.

Definition ret {A : Type} (a : A) : M A := fun _ tr => (Returned a, tr).

Definition throw {A : Type} (e : JsError) : M A := fun _ tr => (Threw e, tr).

Definition bind {A B : Type} (m : M A) (k : A -> M B) : M B :=
  fun w tr =>
    match m w tr with
    | (Returned a, tr') => k a w tr'
    | (Threw e, tr') => (Threw e, tr')
    | (Suspended, tr') => (Suspended, tr')
    end.

Declare Scope helper_scope.
Delimit Scope helper_scope with helper.
Notation "x <- m ;; k" := (bind m (fun x => k))
  (at level 100, m at next level, right associativity) : helper_scope.
Notation "m ;; k" := (bind m (fun _ => k))
  (at level 100, right associativity) : helper_scope.
Open Scope helper_scope.

Definition emit (e : Event) : M unit := fun _ tr => (Returned tt, tr ++ [e]).

(** [moment()]. *)
Definition moment : M Z := fun w tr => (Returned (clock w), tr).

Definition console_log (entry : Logged) : M unit := emit (ConsoleLog entry).

Definition sendSocketNotification (notification : string)
    (payload : option Payload) : M unit :=
  emit (SocketNotification notification payload).

(** [axios(axiosConfig)]: the request leaves at once; the promise is the
    one axios settles from what comes back. *)
Definition axios (axiosConfig : AxiosConfig) : M (Promise.t Response.t) :=
  fun w tr =>
    let k := List.length (requestsOf tr) in
    (Returned (network w k axiosConfig), tr ++ [HttpGet axiosConfig]).

(** [await p] inside [try { ... } catch (err) { ... }]: the value, or the
    error for the handler; no return when [p] never settles. *)
Definition tryAwait {A : Type} (p : Promise.t A) : M (A + JsError) :=
  fun _ tr =>
    match Promise.settled p with
    | Promise.Fulfilled v => (Returned (inl v), tr)
    | Promise.Rejected e => (Returned (inr e), tr)
    | Promise.Pending => (Suspended, tr)
    end.

(** Run a computation from an empty trace. *)
Definition run {A : Type} (m : M A) (w : World) : Completion A * Trace :=
  m w [].

(** ** The fetch operations

    Each is an [async] function with one [await], on the promise of axios.
    Calling it sends the request and returns the function's promise; the code
    after the [await] is the function named [...Result] below. *)

Definition nextBusResult (scheduleResponse : Response.t) : FetchResult.t :=
  if Response.status scheduleResponse =? 200 then
    {| FetchResult.data := Some (Response.data scheduleResponse);
       FetchResult.name := None;
       FetchResult.processor := Some "processBusPredictorData";
       FetchResult.success := true;
       FetchResult.status := None |}
  else
    {| FetchResult.data := None;
       FetchResult.name := None;
       FetchResult.processor := None;
       FetchResult.success := false;
       FetchResult.status := Some (Response.status scheduleResponse) |}.

Definition nextBusRequest (config : Config) : AxiosConfig :=
  let url := "https://api.wmata.com/NextBusService.svc/json/jPredictions" in
  let params :=
    [("StopID", busStopId config); ("api_key", wmataApiKey config)] in
  {| method := "get"; url := url; params := params |}.

Definition fetchNextBus (config : Config) : M (Promise.t FetchResult.t) :=
  let axiosConfig := nextBusRequest config in
  scheduleResponse <- axios axiosConfig ;;
  ret (Promise.andThen scheduleResponse nextBusResult).

Definition stopScheduleResult (sctopResponse : Response.t) : FetchResult.t :=
  if Response.status sctopResponse =? 200 then
    {| FetchResult.data := Some (Response.data sctopResponse);
       FetchResult.name := None;
       FetchResult.processor := Some "processStopData";
       FetchResult.success := true;
       FetchResult.status := None |}
  else
    {| FetchResult.data := None;
       FetchResult.name := None;
       FetchResult.processor := None;
       FetchResult.success := false;
       FetchResult.status := Some (Response.status sctopResponse) |}.

Definition stopScheduleRequest (config : Config) : AxiosConfig :=
  let url := "https://api.wmata.com/Bus.svc/json/jStopSchedule" in
  let params :=
    [("StopID", busStopId config); ("api_key", wmataApiKey config)] in
  {| method := "get"; url := url; params := params |}.

Definition fetchStopSchedule (config : Config) : M (Promise.t FetchResult.t) :=
  let axiosConfig := stopScheduleRequest config in
  sctopResponse <- axios axiosConfig ;;
  ret (Promise.andThen sctopResponse stopScheduleResult).

Definition timeToWorkResult (destination : Destination.t)
    (commuteResponse : Response.t) : FetchResult.t :=
  if Response.status commuteResponse =? 200 then
    {| FetchResult.data := Some (Response.data commuteResponse);
       (* Bring the name of the destination for display *)
       FetchResult.name := Some (Destination.name destination);
       FetchResult.processor := Some "processCommuteData";
       FetchResult.success := true;
       FetchResult.status := None |}
  else
    {| FetchResult.data := None;
       FetchResult.name := None;
       FetchResult.processor := None;
       FetchResult.success := false;
       FetchResult.status := Some (Response.status commuteResponse) |}.

(** [`${a},${b}`]. *)
Definition latLon (a b : Coord) : string :=
  String.append a (String.append "," b).

(** The read of [config.places.home] for its [lat]: the home, or the
    TypeError of reading [home] from a missing [places], or [lat] from a
    missing [home]. *)
Definition homeOf (config : Config) : JsError + Home :=
  match places config with
  | None => inl (TypeError "home")
  | Some pl =>
      match home pl with
      | None => inl (TypeError "lat")
      | Some h => inr h
      end
  end.

(** The object handed to axios, [h] being the home read from [config]. *)
Definition timeToWorkRequest (config : Config) (h : Home)
    (destination : Destination.t) : AxiosConfig :=
  let url := "https://maps.googleapis.com/maps/api/directions/json" in
  let params :=
    [("origin", latLon (home_lat h) (home_lon h));
     ("destination",
      latLon (Destination.lat destination) (Destination.lon destination));
     ("key", googleApiKey config);
     (* The commute time is transit using public transportation *)
     ("mode", "transit")] in
  {| method := "get"; url := url; params := params |}.

(** The first thing the function does is to build [params], and with it to
    read the home.  An exception there is thrown inside an [async] function:
    the call still returns, with a promise that is already rejected, and no
    request is made. *)
Definition fetchTimeToWork (config : Config) (destination : Destination.t)
    : M (Promise.t FetchResult.t) :=
  match homeOf config with
  | inl e => ret (Promise.mk 0%nat (Promise.Rejected e))
  | inr h =>
      let axiosConfig := timeToWorkRequest config h destination in
      commuteResponse <- axios axiosConfig ;;
      ret (Promise.andThen commuteResponse (timeToWorkResult destination))
  end.

(** ** The entry point *)

Definition FETCH_STOP_SCHEDULE : string :=
  "MMM-WmataBusSchedule-FETCH_STOP_SCHEDULE".
Definition FETCH_COMMUTE : string := "MMM-WmataBusSchedule-FETCH_COMMUTE".
Definition BUS_STOP_DATA : string := "MMM-WmataBusSchedule-BUS_STOP_DATA".
Definition COMMUTE_DATA : string := "MMM-WmataBusSchedule-COMMUTE_DATA".
Definition TEAR_DOWN_DOM : string := "MMM-WmataBusSchedule-TEAR-DOWN-DOM".

(** The read of [payload.places.destinations] for its [length]: the list, or
    the TypeError of reading [destinations] from a missing [places], or
    [length] from a missing [destinations]. *)
Definition destinationsOf (payload : Config) : JsError + list Destination.t :=
  match places payload with
  | None => inl (TypeError "destinations")
  | Some pl =>
      match destinations pl with
      | None => inl (TypeError "length")
      | Some ds => inr ds
      end
  end.

(** The loop [for (i = 0; i < destinations.length; i++) requests.push(...)],
    from the destination at the head of [ds] on. *)
Fixpoint pushTimeToWork (payload : Config) (ds : list Destination.t)
    (requests : list (Promise.t FetchResult.t))
    : M (list (Promise.t FetchResult.t)) :=
  match ds with
  | [] => ret requests
  | d :: rest =>
      p <- fetchTimeToWork payload d ;;
      pushTimeToWork payload rest (requests ++ [p])
  end.

Definition socketNotificationReceived (notification : string)
    (payload : Config) : M unit :=
  clockNow <- moment ;;
  let weShouldFetch := shouldWeFetchCommuteData clockNow payload in
  if weShouldFetch then
    (if String.eqb notification FETCH_STOP_SCHEDULE then
       (* Update the bust stop info *)
       (pending <- fetchStopSchedule payload ;;
        outcome <- tryAwait pending ;;
        match outcome with
        | inl stopSchedule =>
            sendSocketNotification BUS_STOP_DATA (Some (One stopSchedule))
        | inr err =>
            (console_log (LogText "Error firing requests to WMATA API!") ;;
             console_log (LogError err))
        end)
     else ret tt) ;;
    (if String.eqb notification FETCH_COMMUTE then
       (console_log (LogText "We are fetching bus schedule/commute data") ;;
        nextBus <- fetchNextBus payload ;;
        now <- moment ;;
        requests <-
          (if Moment.minute now mod 2 =? 0 then
             (* the loop is outside the [try]: what it throws is not caught *)
             match destinationsOf payload with
             | inl e => throw e
             | inr ds => pushTimeToWork payload ds [nextBus]
             end
           else
             (console_log
                (LogText "We are not fetching the COmmute right now.") ;;
              ret [nextBus])) ;;
        outcome <- tryAwait (Promise.all requests) ;;
        match outcome with
        | inl responses =>
            sendSocketNotification COMMUTE_DATA (Some (Many responses))
        | inr err =>
            (console_log
               (LogText "Error firing requests to Google/WMATA APIs!") ;;
             console_log (LogError err))
        end)
     else ret tt)
  else
    (* Tear down what is there. *)
    sendSocketNotification TEAR_DOWN_DOM None.

(** ** Reading the outcome of a call *)

(** The fetch result that a call of a fetch operation ends with, when its
    promise is fulfilled. *)
Definition fetched {A : Type} (out : Completion (Promise.t A) * Trace)
    : option A :=
  match fst out with
  | Returned p =>
      match Promise.settled p with
      | Promise.Fulfilled v => Some v
      | _ => None
      end
  | _ => None
  end.

(** How the promise returned by a call of a fetch operation ends. *)
Definition ending {A : Type} (out : Completion (Promise.t A) * Trace)
    : option (Promise.state A) :=
  match fst out with
  | Returned p => Some (Promise.settled p)
  | _ => None
  end.

(** How the next call to axios ends, if that call is [request]. *)
Definition nextReply (w : World) (tr : Trace) (request : AxiosConfig)
    : Promise.state Response.t :=
  Promise.settled (network w (List.length (requestsOf tr)) request).

(** What comes back from the server for the next call to axios, if that call
    is [request]. *)
Definition nextBack (w : World) (tr : Trace) (request : AxiosConfig)
    : Promise.state Response.t :=
  Promise.settled (server w (List.length (requestsOf tr)) request).

(** ** Describing a commute batch *)

(** A call: the request, and the code that runs on its response. *)
Record Call : Type :=
  { call_request : AxiosConfig;
    call_after : Response.t -> FetchResult.t }.

Definition nextBusCall (payload : Config) : Call :=
  {| call_request := nextBusRequest payload; call_after := nextBusResult |}.

Definition timeToWorkCall (payload : Config) (h : Home) (d : Destination.t)
    : Call :=
  {| call_request := timeToWorkRequest payload h d;
     call_after := timeToWorkResult d |}.

(** The promises of [calls] when they are made one after the other and the
    first of them is call number [k] of the invocation. *)
Fixpoint promisesFrom (w : World) (k : nat) (calls : list Call)
    : list (Promise.t FetchResult.t) :=
  match calls with
  | [] => []
  | c :: rest =>
      Promise.andThen (network w k (call_request c)) (call_after c)
      :: promisesFrom w (S k) rest
  end.

(** The calls of a commute batch for the home [h] and the destinations
    [ds]: the next-bus call, then one call per destination, in order. *)
Definition commuteCalls (payload : Config) (h : Home)
    (ds : list Destination.t) : list Call :=
  nextBusCall payload :: map (timeToWorkCall payload h) ds.




(** The destinations that the loop of a FETCH_COMMUTE invocation runs over
    when the clock reads [now]: those of the payload in an even minute, if
    they can be read; none in an odd minute, where the loop is not run. *)
Definition commuteDestinations (now : Z) (payload : Config)
    : JsError + list Destination.t :=
  if Moment.minute now mod 2 =? 0 then destinationsOf payload else inr [].

(** The requests that the loop makes for the destinations [ds]: none when
    the home cannot be read. *)
Definition timeToWorkRequests (payload : Config) (ds : list Destination.t)
    : list AxiosConfig :=
  match homeOf payload with
  | inl _ => []
  | inr h => map (timeToWorkRequest payload h) ds
  end.

(** The promises that the loop collects for the destinations [ds], its
    first call being call number [k] of the invocation. *)
Definition timeToWorkPromises (w : World) (payload : Config) (k : nat)
    (ds : list Destination.t) : list (Promise.t FetchResult.t) :=
  match homeOf payload with
  | inl e => map (fun _ => Promise.mk 0%nat (Promise.Rejected e)) ds
  | inr h => promisesFrom w k (map (timeToWorkCall payload h) ds)
  end.

(** The array handed to [Promise.all]. *)
Definition commutePromises (w : World) (payload : Config)
    (ds : list Destination.t) : list (Promise.t FetchResult.t) :=
  Promise.andThen (network w 0%nat (nextBusRequest payload)) nextBusResult
  :: timeToWorkPromises w payload 1%nat ds.

(** The requests of a FETCH_COMMUTE invocation whose loop runs over [ds]. *)
Definition commuteRequests (payload : Config) (ds : list Destination.t)
    : list AxiosConfig :=
  nextBusRequest payload :: timeToWorkRequests payload ds.

(** The trace of a FETCH_COMMUTE invocation up to the loop. *)
Definition commuteStarted (payload : Config) : Trace :=
  [ConsoleLog (LogText "We are fetching bus schedule/commute data");
   HttpGet (nextBusRequest payload)].

(** The trace of a FETCH_COMMUTE invocation up to its [await], the loop
    having run over [ds]. *)
Definition commuteSent (now : Z) (payload : Config)
    (ds : list Destination.t) : Trace :=
  commuteStarted payload
  ++ (if Moment.minute now mod 2 =? 0
      then map HttpGet (timeToWorkRequests payload ds)
      else [ConsoleLog (LogText "We are not fetching the COmmute right now.")]).

(** A commute invocation gets as far as its [try] block: the minute is odd,
    or the payload carries places with a home and a destination list. *)
Definition ready (now : Z) (payload : Config) : Prop :=
  Moment.minute now mod 2 <> 0
  \/ exists h ds,
       places payload = Some {| home := Some h; destinations := Some ds |}.

(** ** Example data *)

Definition work : Destination.t := Destination.mk "Work" "38.88" "-77.10".

Definition gym : Destination.t := Destination.mk "Gym" "38.92" "-77.07".

Definition atHome : Home := {| home_lat := "38.90"; home_lon := "-77.03" |}.

(** A configuration used in the examples: weekdays, 08:00 to 09:00, two
    destinations. *)
Definition weekdayMorning : Config :=
  {| busStopId := "1001";
     wmataApiKey := "wmata-key";
     googleApiKey := "google-key";
     schedule :=
       Some {| times := {| start := "08:00"; stop := "09:00" |};
               days := [1; 2; 3; 4; 5] |};
     places :=
       Some {| home := Some atHome; destinations := Some [work; gym] |} |}.

(** The same with another schedule, or none. *)
Definition withSchedule (sch : option Schedule) : Config :=
  {| busStopId := busStopId weekdayMorning;
     wmataApiKey := wmataApiKey weekdayMorning;
     googleApiKey := googleApiKey weekdayMorning;
     schedule := sch;
     places := places weekdayMorning |}.

Definition alwaysOn : Config := withSchedule None.

(** A window that runs over midnight. *)
Definition overnight : Config :=
  withSchedule
    (Some {| times := {| start := "22:00"; stop := "06:00" |};
             days := [0; 1; 2; 3; 4; 5; 6] |}).

(** A window meant to cover the whole day. *)
Definition wholeDay : Config :=
  withSchedule
    (Some {| times := {| start := "00:00"; stop := "24:00" |};
             days := [0; 1; 2; 3; 4; 5; 6] |}).

(** Sunday written 7 and a start minute that does not exist. *)
Definition misconfigured : Config :=
  withSchedule
    (Some {| times := {| start := "08:60"; stop := "09:00" |};
             days := [7] |}).

(** No schedule, and other places, or none. *)
Definition withPlaces (pl : option Places) : Config :=
  {| busStopId := busStopId weekdayMorning;
     wmataApiKey := wmataApiKey weekdayMorning;
     googleApiKey := googleApiKey weekdayMorning;
     schedule := None;
     places := pl |}.

(** A configuration for the bus stop alone. *)
Definition noPlaces : Config := withPlaces None.

(** Destinations, and no home to start from. *)
Definition noHome : Config :=
  withPlaces (Some {| home := None; destinations := Some [work; gym] |}).

(** Monday 1970-01-05, 08:00:00.000. *)
Definition mondayAt0800 : Z := 4 * Moment.msPerDay + 8 * Moment.msPerHour.

(** Saturday 1970-01-03, 08:30:00.000. *)
Definition saturdayAt0830 : Z :=
  2 * Moment.msPerDay + 8 * Moment.msPerHour + 30 * Moment.msPerMinute.

Definition emptyPredictions : Json := JObj [("predictions", JArr [])].

(** A server that answers every call, after a delay that grows with the
    order of the calls, with the given status and an empty list of
    predictions. *)
Definition answering (code : Z) : nat -> AxiosConfig -> Promise.t Response.t :=
  fun k _ =>
    Promise.mk (S k) (Promise.Fulfilled (Response.mk code emptyPredictions)).

(** The call number [bad] is lost on the way and the others are answered with
    status 200. *)
Definition failingAt (bad : nat) : nat -> AxiosConfig -> Promise.t Response.t :=
  fun k request =>
    if Nat.eqb k bad
    then Promise.mk 1%nat (Promise.Rejected (TransportError "Network Error"))
    else answering 200 k request.

(** The call number [stuck] is never answered and the others are answered
    with status 200. *)
Definition hangingAt (stuck : nat) : nat -> AxiosConfig -> Promise.t Response.t :=
  fun k request =>
    if Nat.eqb k stuck
    then Promise.mk 0%nat Promise.Pending
    else answering 200 k request.

(** The call number [missing] is answered with status 404 and the others
    with status 200. *)
Definition notFoundAt (missing : nat)
    : nat -> AxiosConfig -> Promise.t Response.t :=
  fun k request =>
    if Nat.eqb k missing then answering 404 k request
    else answering 200 k request.

Definition at_ (now : Z) (back : nat -> AxiosConfig -> Promise.t Response.t)
    : World :=
  {| clock := now; server := back |}.

(** * Properties *)

(** ** Worked examples *)

Example clockOffset_noon : Moment.clockOffset "12:30" = Some 45000000.
Proof. reflexivity. Qed.

Example clockOffset_end_of_day :
  Moment.clockOffset "24:00" = Some Moment.msPerDay.
Proof. reflexivity. Qed.

Example clockOffset_overflow :
  Moment.clockOffset "25:00" = None /\ Moment.clockOffset "24:01" = None
  /\ Moment.clockOffset "08:60" = None.
Proof. repeat split. Qed.

(** Texts that are not written the way the format asks. *)
Example hourMinute_forgiving :
  Moment.hourMinute "8:00" = Some (8, 0)
  /\ Moment.hourMinute "0800" = Some (8, 0)
  /\ Moment.hourMinute "8" = Some (8, 0)
  /\ Moment.hourMinute "08:00 pm" = Some (20, 0)
  /\ Moment.hourMinute "08:00PM" = Some (20, 0)
  /\ Moment.hourMinute "12:15 am" = Some (0, 15)
  /\ Moment.hourMinute "12:15 pm" = Some (12, 15)
  /\ Moment.hourMinute "13:00 pm" = Some (13, 0)
  /\ Moment.hourMinute "at 7.45" = Some (7, 45)
  /\ Moment.hourMinute "" = None
  /\ Moment.hourMinute "pm" = None.
Proof. repeat split. Qed.

Example weekdays :
  Moment.day mondayAt0800 = 1 /\ Moment.day saturdayAt0830 = 6
  /\ Moment.minute saturdayAt0830 = 30.
Proof. repeat split. Qed.

(** No schedule, a stop-schedule request, status 200 and an empty list of
    predictions: one request, then BUS_STOP_DATA with the success record. *)
Example stop_schedule_delivered :
  run (socketNotificationReceived FETCH_STOP_SCHEDULE alwaysOn)
    (at_ mondayAt0800 (answering 200))
  = (Returned tt,
     [HttpGet
        {| method := "get";
           url := "https://api.wmata.com/Bus.svc/json/jStopSchedule";
           params := [("StopID", "1001"); ("api_key", "wmata-key")] |};
      SocketNotification "MMM-WmataBusSchedule-BUS_STOP_DATA"
        (Some (One {| FetchResult.data := Some emptyPredictions;
                      FetchResult.name := None;
                      FetchResult.processor := Some "processStopData";
                      FetchResult.success := true;
                      FetchResult.status := None |}))]).
Proof. reflexivity. Qed.

(** The same with status 404: axios throws, the error is logged and nothing
    is delivered. *)
Example stop_schedule_not_found :
  run (socketNotificationReceived FETCH_STOP_SCHEDULE alwaysOn)
    (at_ mondayAt0800 (answering 404))
  = (Returned tt,
     [HttpGet (stopScheduleRequest alwaysOn);
      ConsoleLog (LogText "Error firing requests to WMATA API!");
      ConsoleLog (LogError (StatusError (Response.mk 404 emptyPredictions)))]).
Proof. reflexivity. Qed.

(** Weekdays 08:00 to 09:00, asked on a Saturday at 08:30: tear down, and no
    request. *)
Example saturday_tears_down :
  run (socketNotificationReceived FETCH_STOP_SCHEDULE weekdayMorning)
    (at_ saturdayAt0830 (answering 200))
  = (Returned tt,
     [SocketNotification "MMM-WmataBusSchedule-TEAR-DOWN-DOM" None]).
Proof. reflexivity. Qed.

(** A commute request in an even minute whose second call never ends: the
    three requests leave, and the invocation stays on its [await]. *)
Example commute_hangs :
  run (socketNotificationReceived FETCH_COMMUTE alwaysOn)
    (at_ mondayAt0800 (hangingAt 1))
  = (Suspended,
     [ConsoleLog (LogText "We are fetching bus schedule/commute data");
      HttpGet (nextBusRequest alwaysOn);
      HttpGet (timeToWorkRequest alwaysOn atHome work);
      HttpGet (timeToWorkRequest alwaysOn atHome gym)]).
Proof. reflexivity. Qed.

(** A commute request in an even minute for a payload without places: the
    next-bus request leaves, then the loop throws, outside the [try]. *)
Example commute_without_places :
  run (socketNotificationReceived FETCH_COMMUTE noPlaces)
    (at_ mondayAt0800 (answering 200))
  = (Threw (TypeError "destinations"),
     [ConsoleLog (LogText "We are fetching bus schedule/commute data");
      HttpGet (nextBusRequest noPlaces)]).
Proof. reflexivity. Qed.

(** The same payload in an odd minute: the loop is not run. *)
Example commute_without_places_odd :
  run (socketNotificationReceived FETCH_COMMUTE noPlaces)
    (at_ (mondayAt0800 + Moment.msPerMinute) (answering 200))
  = (Returned tt,
     [ConsoleLog (LogText "We are fetching bus schedule/commute data");
      HttpGet (nextBusRequest noPlaces);
      ConsoleLog (LogText "We are not fetching the COmmute right now.");
      SocketNotification "MMM-WmataBusSchedule-COMMUTE_DATA"
        (Some (Many [{| FetchResult.data := Some emptyPredictions;
                        FetchResult.name := None;
                        FetchResult.processor := Some "processBusPredictorData";
                        FetchResult.success := true;
                        FetchResult.status := None |}]))]).
Proof. reflexivity. Qed.

(** Destinations and no home, in an even minute: no commute request leaves,
    the TypeError of the first commute fetch is caught and logged. *)
Example commute_without_home :
  run (socketNotificationReceived FETCH_COMMUTE noHome)
    (at_ mondayAt0800 (answering 200))
  = (Returned tt,
     [ConsoleLog (LogText "We are fetching bus schedule/commute data");
      HttpGet (nextBusRequest noHome);
      ConsoleLog (LogText "Error firing requests to Google/WMATA APIs!");
      ConsoleLog (LogError (TypeError "lat"))]).
Proof. reflexivity. Qed.

(** Of two rejections, [Promise.all] reports the earlier one. *)
Example all_reports_first_rejection :
  Promise.settled
    (Promise.all
       [Promise.mk 1%nat (Promise.Fulfilled 7);
        Promise.mk 5%nat (Promise.Rejected (TransportError "late"));
        Promise.mk 3%nat (Promise.Rejected (TransportError "early"));
        Promise.mk 0%nat Promise.Pending])
  = Promise.Rejected (TransportError "early").
Proof. reflexivity. Qed.

(** ** The schedule gate *)

Section Gate.

Lemma instant_split (now : Z) :
  now = Moment.startOfDay now + Moment.timeOfDay now.
Proof.
  unfold Moment.startOfDay, Moment.timeOfDay.
  apply Z.div_mod. unfold Moment.msPerDay. lia.
Qed.

Lemma timeOfDay_range (now : Z) :
  0 <= Moment.timeOfDay now < Moment.msPerDay.
Proof.
  unfold Moment.timeOfDay. apply Z.mod_pos_bound.
  unfold Moment.msPerDay. lia.
Qed.

Lemma includes_In (xs : list Z) (x : Z) :
  includes xs x = true <-> In x xs.
Proof.
  unfold includes. rewrite existsb_exists. split.
  - intros [y [Hy Heq]]. apply Z.eqb_eq in Heq. now subst.
  - intros Hx. exists x. split; [assumption | apply Z.eqb_refl].
Qed.

(** Against a parsed time, [isBetween] compares times of day. *)
Lemma isBetween_today (now a b : Z) :
  Moment.isBetween (Moment.At now)
    (Moment.At (Moment.startOfDay now + a))
    (Moment.At (Moment.startOfDay now + b))
  = (a <? Moment.timeOfDay now) && (Moment.timeOfDay now <? b).
Proof.
  simpl. pose proof (instant_split now) as Hsplit.
  destruct (Z.ltb_spec a (Moment.timeOfDay now));
    destruct (Z.ltb_spec (Moment.timeOfDay now) b);
    destruct (Z.ltb_spec (Moment.startOfDay now + a) now);
    destruct (Z.ltb_spec now (Moment.startOfDay now + b));
    simpl; try reflexivity; lia.
Qed.

Variables (now : Z) (config : Config) (sch : Schedule).
Hypothesis has_schedule : schedule config = Some sch.

(** With both times readable, the gate is the weekday test and the two
    strict comparisons. *)
Lemma gate_scheduled (a b : Z) :
  Moment.clockOffset (start (times sch)) = Some a ->
  Moment.clockOffset (stop (times sch)) = Some b ->
  shouldWeFetchCommuteData now config
  = includes (days sch) (Moment.day now)
    && ((a <? Moment.timeOfDay now) && (Moment.timeOfDay now <? b)).
Proof.
  intros Ha Hb. unfold shouldWeFetchCommuteData, Moment.parse.
  rewrite has_schedule, Ha, Hb, isBetween_today.
  now destruct (includes _ _ && _).
Qed.

End Gate.


Lemma digit_range (c : ascii) (n : Z) :
  Moment.digit c = Some n -> 0 <= n <= 9.
Proof.
  unfold Moment.digit. cbv zeta.
  destruct (_ && _) eqn:Hc; try discriminate.
  intros Heq. assert (Hn : Z.of_nat (nat_of_ascii c) - 48 = n) by congruence.
  apply andb_prop in Hc. destruct Hc as [Hlo Hhi].
  apply Z.leb_le in Hlo, Hhi. lia.
Qed.

Lemma oneOrTwoDigits_range (s rest : string) (n : Z) :
  Moment.oneOrTwoDigits s = Some (n, rest) -> 0 <= n <= 99.
Proof.
  induction s as [|c s IH]; cbn [Moment.oneOrTwoDigits]; try discriminate.
  destruct (Moment.digit c) as [d1|] eqn:Hd1; [| exact IH].
  apply digit_range in Hd1.
  destruct s as [|c2 s2].
  - intros Heq. assert (d1 = n) by congruence. lia.
  - destruct (Moment.digit c2) as [d2|] eqn:Hd2.
    + apply digit_range in Hd2. intros Heq.
      assert (10 * d1 + d2 = n) by congruence. lia.
    + intros Heq. assert (d1 = n) by congruence. lia.
Qed.

Lemma hourMinute_range (s : string) (h m : Z) :
  Moment.hourMinute s = Some (h, m) -> 0 <= h <= 99 /\ 0 <= m <= 99.
Proof.
  unfold Moment.hourMinute.
  destruct (Moment.oneOrTwoDigits s) as [[h0 afterHour]|] eqn:Hh;
    try discriminate.
  apply oneOrTwoDigits_range in Hh.
  destruct (Moment.oneOrTwoDigits (Moment.skipLiteral ":" afterHour))
    as [[m0 afterMinute]|] eqn:Hm.
  - apply oneOrTwoDigits_range in Hm. intros Heq.
    assert (Hh' : Moment.meridiemFix
                    (Moment.meridiem (Moment.skipLiteral " " afterMinute)) h0
                  = h) by congruence.
    assert (m0 = m) by congruence. subst m.
    unfold Moment.meridiemFix in Hh'.
    destruct (Moment.meridiem _) as [[|]|];
      [destruct (Z.ltb_spec h0 12) | destruct (Z.eqb_spec h0 12) |]; lia.
  - intros Heq.
    assert (Hh' : Moment.meridiemFix
                    (Moment.meridiem
                       (Moment.skipLiteral " "
                          (Moment.skipLiteral ":" afterHour))) h0
                  = h) by congruence.
    assert (0 = m) by congruence. subst m.
    unfold Moment.meridiemFix in Hh'.
    destruct (Moment.meridiem _) as [[|]|];
      [destruct (Z.ltb_spec h0 12) | destruct (Z.eqb_spec h0 12) |]; lia.
Qed.

Lemma clockOffset_range (s : string) (off : Z) :
  Moment.clockOffset s = Some off -> 0 <= off <= Moment.msPerDay.
Proof.
  unfold Moment.clockOffset.
  destruct (Moment.hourMinute s) as [[h m]|] eqn:Hhm; try discriminate.
  apply hourMinute_range in Hhm.
  destruct (Moment.overflow h m) eqn:Hov; try discriminate.
  intros Heq.
  assert (Hoff : h * Moment.msPerHour + m * Moment.msPerMinute = off)
    by congruence.
  unfold Moment.overflow in Hov.
  apply orb_false_elim in Hov. destruct Hov as [Hov Hmin].
  apply orb_false_elim in Hov. destruct Hov as [Hhour Hmid].
  apply Z.ltb_ge in Hmin, Hhour.
  unfold Moment.msPerHour, Moment.msPerMinute, Moment.msPerDay in *.
  apply andb_false_iff in Hmid. destruct Hmid as [Hmid | Hmid].
  - apply Z.eqb_neq in Hmid. lia.
  - apply negb_false_iff in Hmid. apply Z.eqb_eq in Hmid. lia.
Qed.

(** C1, as the specification states it, fails: on an active day, at the very
    millisecond of the start time, the time of day is in [[start, stop)] and
    the gate is closed, so the gate is not equivalent to membership in the
    half-open window. *)
Lemma gate_half_open_counterexample :
  Moment.clockOffset "08:00" = Some (8 * Moment.msPerHour) /\
  Moment.clockOffset "09:00" = Some (9 * Moment.msPerHour) /\
  ~ (shouldWeFetchCommuteData mondayAt0800 weekdayMorning = true <->
     In (Moment.day mondayAt0800) [1; 2; 3; 4; 5] /\
     8 * Moment.msPerHour <= Moment.timeOfDay mondayAt0800
       < 9 * Moment.msPerHour).
Proof.
  split; [reflexivity | split; [reflexivity |]].
  intros [_ Hback].
  assert (Hopen : shouldWeFetchCommuteData mondayAt0800 weekdayMorning = true).
  { apply Hback. split.
    - vm_compute. tauto.
    - vm_compute. split; [discriminate | reflexivity]. }
  vm_compute in Hopen. discriminate.
Qed.

(** C1, amended: with a schedule whose two times are written "HH:mm", the gate
    is open exactly when the weekday is one of the configured days and the
    time of day lies strictly between start and stop, to the millisecond; it
    is closed at the very start time and at the very stop time. *)
Theorem gate_open_window (now : Z) (config : Config) (sch : Schedule)
    (a b : Z) :
  schedule config = Some sch ->
  Moment.clockOffset (start (times sch)) = Some a ->
  Moment.clockOffset (stop (times sch)) = Some b ->
  (shouldWeFetchCommuteData now config = true <->
   In (Moment.day now) (days sch) /\ a < Moment.timeOfDay now < b)
  /\ (Moment.timeOfDay now = a -> shouldWeFetchCommuteData now config = false)
  /\ (Moment.timeOfDay now = b -> shouldWeFetchCommuteData now config = false).
Proof.
  intros Hsch Ha Hb.
  rewrite (gate_scheduled now config sch Hsch a b Ha Hb).
  split; [split | split].
  - intros Hopen. apply andb_prop in Hopen. destruct Hopen as [Hday Hwin].
    apply andb_prop in Hwin. destruct Hwin as [Hlo Hhi].
    apply includes_In in Hday. apply Z.ltb_lt in Hlo, Hhi. tauto.
  - intros [Hday [Hlo Hhi]].
    apply includes_In in Hday. apply Z.ltb_lt in Hlo, Hhi.
    now rewrite Hday, Hlo, Hhi.
  - intros ->. rewrite Z.ltb_irrefl. now rewrite andb_false_r.
  - intros ->. rewrite Z.ltb_irrefl. now rewrite !andb_false_r.
Qed.

Lemma gate_open_window_witness :
  (shouldWeFetchCommuteData (mondayAt0800 + 1) weekdayMorning = true <->
   In (Moment.day (mondayAt0800 + 1)) [1; 2; 3; 4; 5] /\
   8 * Moment.msPerHour < Moment.timeOfDay (mondayAt0800 + 1)
     < 9 * Moment.msPerHour)
  /\ (Moment.timeOfDay (mondayAt0800 + 1) = 8 * Moment.msPerHour ->
      shouldWeFetchCommuteData (mondayAt0800 + 1) weekdayMorning = false)
  /\ (Moment.timeOfDay (mondayAt0800 + 1) = 9 * Moment.msPerHour ->
      shouldWeFetchCommuteData (mondayAt0800 + 1) weekdayMorning = false).
Proof.
  apply (gate_open_window (mondayAt0800 + 1) weekdayMorning
           {| times := {| start := "08:00"; stop := "09:00" |};
              days := [1; 2; 3; 4; 5] |}
           (8 * Moment.msPerHour) (9 * Moment.msPerHour));
    reflexivity.
Defined.

(** C8: when the stop time is earlier than the start time, the gate is closed
    at every instant. *)
Theorem gate_overnight_never_open (now : Z) (config : Config)
    (sch : Schedule) (a b : Z) :
  schedule config = Some sch ->
  Moment.clockOffset (start (times sch)) = Some a ->
  Moment.clockOffset (stop (times sch)) = Some b ->
  b < a ->
  shouldWeFetchCommuteData now config = false.
Proof.
  intros Hsch Ha Hb Hlt.
  rewrite (gate_scheduled now config sch Hsch a b Ha Hb).
  destruct (Z.ltb_spec a (Moment.timeOfDay now));
    destruct (Z.ltb_spec (Moment.timeOfDay now) b);
    simpl; rewrite ?andb_false_r; try reflexivity; lia.
Qed.

Lemma gate_overnight_never_open_witness :
  shouldWeFetchCommuteData (mondayAt0800 + 15 * Moment.msPerHour) overnight
  = false.
Proof.
  apply (gate_overnight_never_open (mondayAt0800 + 15 * Moment.msPerHour)
           overnight
           {| times := {| start := "22:00"; stop := "06:00" |};
              days := [0; 1; 2; 3; 4; 5; 6] |}
           (22 * Moment.msPerHour) (6 * Moment.msPerHour));
    try reflexivity.
Defined.

(** C9: without a schedule the gate is open, whatever the instant. *)
Theorem gate_no_schedule_always_open (now : Z) (config : Config) :
  schedule config = None ->
  shouldWeFetchCommuteData now config = true.
Proof.
  intros Hnone. unfold shouldWeFetchCommuteData. now rewrite Hnone.
Qed.

Lemma gate_no_schedule_always_open_witness :
  shouldWeFetchCommuteData mondayAt0800 alwaysOn = true.
Proof.
  apply (gate_no_schedule_always_open mondayAt0800 alwaysOn). reflexivity.
Defined.

(** ** The fetch operations *)

(** A fetch operation always hands back a promise; it sends its request at
    once, but for [fetchTimeToWork] when the home cannot be read. *)
Lemma fetchNextBus_run (config : Config) (w : World) (tr : Trace) :
  fetchNextBus config w tr
  = (Returned (Promise.andThen
                 (network w (List.length (requestsOf tr))
                    (nextBusRequest config))
                 nextBusResult),
     tr ++ [HttpGet (nextBusRequest config)]).
Proof. reflexivity. Qed.

Lemma fetchStopSchedule_run (config : Config) (w : World) (tr : Trace) :
  fetchStopSchedule config w tr
  = (Returned (Promise.andThen
                 (network w (List.length (requestsOf tr))
                    (stopScheduleRequest config))
                 stopScheduleResult),
     tr ++ [HttpGet (stopScheduleRequest config)]).
Proof. reflexivity. Qed.

Lemma fetchTimeToWork_run (config : Config) (destination : Destination.t)
    (w : World) (tr : Trace) :
  fetchTimeToWork config destination w tr
  = match homeOf config with
    | inl e => (Returned (Promise.mk 0%nat (Promise.Rejected e)), tr)
    | inr h =>
        (Returned (Promise.andThen
                     (network w (List.length (requestsOf tr))
                        (timeToWorkRequest config h destination))
                     (timeToWorkResult destination)),
         tr ++ [HttpGet (timeToWorkRequest config h destination)])
    end.
Proof.
  unfold fetchTimeToWork. now destruct (homeOf config).
Qed.

Lemma settled_andThen {A B : Type} (p : Promise.t A) (k : A -> B) :
  Promise.settled (Promise.andThen p k)
  = match Promise.settled p with
    | Promise.Fulfilled v => Promise.Fulfilled (k v)
    | Promise.Rejected e => Promise.Rejected e
    | Promise.Pending => Promise.Pending
    end.
Proof. unfold Promise.andThen. now destruct (Promise.settled p). Qed.

(** What axios makes of what comes back. *)
Lemma settled_network (w : World) (k : nat) (request : AxiosConfig) :
  Promise.settled (network w k request)
  = match Promise.settled (server w k request) with
    | Promise.Fulfilled response =>
        if passes (Response.status response)
        then Promise.Fulfilled response
        else Promise.Rejected (StatusError response)
    | Promise.Rejected e => Promise.Rejected e
    | Promise.Pending => Promise.Pending
    end.
Proof.
  unfold network, settle.
  destruct (Promise.settled (server w k request)) as [response|e|];
    try reflexivity.
  now destruct (passes (Response.status response)).
Qed.

(** A status from 200 to 299 passes; a status of HTTP outside that range
    does not. *)
Lemma passes_true (status : Z) :
  200 <= status < 300 -> passes status = true.
Proof.
  intros [Hlo Hhi]. unfold passes, validateStatus.
  apply Z.leb_le in Hlo. apply Z.ltb_lt in Hhi.
  rewrite Hlo, Hhi. apply orb_true_r.
Qed.

Lemma passes_false (status : Z) :
  100 <= status < 200 \/ 300 <= status -> passes status = false.
Proof.
  intros Hout. unfold passes, validateStatus.
  destruct (Z.eqb_spec status 0), (Z.leb_spec 200 status),
    (Z.ltb_spec status 300); try reflexivity; lia.
Qed.

(** The result of a fetch operation is the code after its [await], run on
    the response. *)
Lemma fetched_andThen {A B : Type} (p : Promise.t A) (k : A -> B)
    (tr : Trace) (v : A) :
  Promise.settled p = Promise.Fulfilled v ->
  fetched (Returned (Promise.andThen p k), tr) = Some (k v).
Proof.
  intros Hp. unfold fetched. simpl. now rewrite settled_andThen, Hp.
Qed.

Lemma fetched_inv {A B : Type} (p : Promise.t A) (k : A -> B)
    (tr : Trace) (r : B) :
  fetched (Returned (Promise.andThen p k), tr) = Some r ->
  exists v, Promise.settled p = Promise.Fulfilled v /\ r = k v.
Proof.
  unfold fetched. simpl. rewrite settled_andThen.
  destruct (Promise.settled p) as [v| |]; try discriminate.
  intros Heq. exists v. split; [reflexivity | congruence].
Qed.

(** C3, on the code: what [fetchNextBus] and [fetchStopSchedule] return for
    each status of the response that comes back.  Status 200 gives the
    success record with the response's data and the operation's processor
    tag, and a status from 201 to 299 gives the failure record that carries
    it, as the claim says.  Any other status of HTTP, 404 or 500 for one,
    gives no fetch result at all: axios, called without a [validateStatus]
    of the helper's own, rejects its promise, and the [await] throws. *)
Theorem bus_fetches_by_status (w : World) (tr : Trace) (config : Config)
    (response : Response.t) :
  (nextBack w tr (nextBusRequest config) = Promise.Fulfilled response ->
   (Response.status response = 200 ->
    fetched (fetchNextBus config w tr)
    = Some {| FetchResult.data := Some (Response.data response);
              FetchResult.name := None;
              FetchResult.processor := Some "processBusPredictorData";
              FetchResult.success := true;
              FetchResult.status := None |})
   /\ (200 <= Response.status response < 300 ->
       Response.status response <> 200 ->
       fetched (fetchNextBus config w tr)
       = Some {| FetchResult.data := None;
                 FetchResult.name := None;
                 FetchResult.processor := None;
                 FetchResult.success := false;
                 FetchResult.status := Some (Response.status response) |})
   /\ (100 <= Response.status response < 200
       \/ 300 <= Response.status response ->
       fetched (fetchNextBus config w tr) = None
       /\ ending (fetchNextBus config w tr)
          = Some (Promise.Rejected (StatusError response))))
  /\
  (nextBack w tr (stopScheduleRequest config) = Promise.Fulfilled response ->
   (Response.status response = 200 ->
    fetched (fetchStopSchedule config w tr)
    = Some {| FetchResult.data := Some (Response.data response);
              FetchResult.name := None;
              FetchResult.processor := Some "processStopData";
              FetchResult.success := true;
              FetchResult.status := None |})
   /\ (200 <= Response.status response < 300 ->
       Response.status response <> 200 ->
       fetched (fetchStopSchedule config w tr)
       = Some {| FetchResult.data := None;
                 FetchResult.name := None;
                 FetchResult.processor := None;
                 FetchResult.success := false;
                 FetchResult.status := Some (Response.status response) |})
   /\ (100 <= Response.status response < 200
       \/ 300 <= Response.status response ->
       fetched (fetchStopSchedule config w tr) = None
       /\ ending (fetchStopSchedule config w tr)
          = Some (Promise.Rejected (StatusError response)))).
Proof.
  unfold nextBack, fetched, ending.
  rewrite fetchNextBus_run, fetchStopSchedule_run. cbn [fst].
  rewrite !settled_andThen, !settled_network.
  split; intros Hback; rewrite Hback; (split; [| split]).
  - intros Hstatus. rewrite passes_true by lia.
    unfold nextBusResult. apply Z.eqb_eq in Hstatus. now rewrite Hstatus.
  - intros Hrange Hstatus. rewrite passes_true by lia.
    unfold nextBusResult. apply Z.eqb_neq in Hstatus. now rewrite Hstatus.
  - intros Hout. now rewrite passes_false.
  - intros Hstatus. rewrite passes_true by lia.
    unfold stopScheduleResult. apply Z.eqb_eq in Hstatus. now rewrite Hstatus.
  - intros Hrange Hstatus. rewrite passes_true by lia.
    unfold stopScheduleResult. apply Z.eqb_neq in Hstatus. now rewrite Hstatus.
  - intros Hout. now rewrite passes_false.
Qed.

Lemma bus_fetches_by_status_witness :
  (fetched (fetchNextBus alwaysOn (at_ mondayAt0800 (answering 404)) []) = None
   /\ ending (fetchNextBus alwaysOn (at_ mondayAt0800 (answering 404)) [])
      = Some (Promise.Rejected
                (StatusError (Response.mk 404 emptyPredictions))))
  /\
  (fetched (fetchStopSchedule alwaysOn (at_ mondayAt0800 (answering 200)) [])
   = Some {| FetchResult.data := Some emptyPredictions;
             FetchResult.name := None;
             FetchResult.processor := Some "processStopData";
             FetchResult.success := true;
             FetchResult.status := None |})
  /\
  (fetched (fetchStopSchedule alwaysOn (at_ mondayAt0800 (answering 204)) [])
   = Some {| FetchResult.data := None;
             FetchResult.name := None;
             FetchResult.processor := None;
             FetchResult.success := false;
             FetchResult.status := Some 204 |}).
Proof.
  pose proof (bus_fetches_by_status (at_ mondayAt0800 (answering 404)) []
                alwaysOn (Response.mk 404 emptyPredictions)) as [Hnext _].
  pose proof (bus_fetches_by_status (at_ mondayAt0800 (answering 200)) []
                alwaysOn (Response.mk 200 emptyPredictions)) as [_ Hstop].
  pose proof (bus_fetches_by_status (at_ mondayAt0800 (answering 204)) []
                alwaysOn (Response.mk 204 emptyPredictions)) as [_ Hstop'].
  split; [| split].
  - apply Hnext; [reflexivity |]. right. simpl. lia.
  - apply Hstop; reflexivity.
  - apply Hstop'; [reflexivity | simpl; lia | discriminate].
Defined.

(** C6: a fetch result returned by any of the three fetch operations is a
    success record or a failure record, and never both. *)
Theorem fetch_result_success_xor_failure (w : World) (tr : Trace)
    (config : Config) (destination : Destination.t) (r : FetchResult.t) :
  fetched (fetchNextBus config w tr) = Some r \/
  fetched (fetchStopSchedule config w tr) = Some r \/
  fetched (fetchTimeToWork config destination w tr) = Some r ->
  xorb (FetchResult.isSuccessRecord r) (FetchResult.isFailureRecord r) = true.
Proof.
  rewrite fetchNextBus_run, fetchStopSchedule_run, fetchTimeToWork_run.
  intros [H | [H | H]].
  - apply fetched_inv in H. destruct H as [v [_ ->]].
    unfold nextBusResult. now destruct (Response.status v =? 200).
  - apply fetched_inv in H. destruct H as [v [_ ->]].
    unfold stopScheduleResult. now destruct (Response.status v =? 200).
  - destruct (homeOf config) as [e | h]; [discriminate |].
    apply fetched_inv in H. destruct H as [v [_ ->]].
    unfold timeToWorkResult. now destruct (Response.status v =? 200).
Qed.

Lemma fetch_result_success_xor_failure_witness :
  xorb
    (FetchResult.isSuccessRecord
       {| FetchResult.data := None;
          FetchResult.name := None;
          FetchResult.processor := None;
          FetchResult.success := false;
          FetchResult.status := Some 204 |})
    (FetchResult.isFailureRecord
       {| FetchResult.data := None;
          FetchResult.name := None;
          FetchResult.processor := None;
          FetchResult.success := false;
          FetchResult.status := Some 204 |})
  = true.
Proof.
  apply (fetch_result_success_xor_failure
           (at_ mondayAt0800 (answering 204)) [] alwaysOn work).
  right. right. reflexivity.
Defined.

(** C7: [fetchTimeToWork], for a configuration with a home, sends one GET
    request to the directions endpoint, with the home coordinates as origin,
    the destination's coordinates as destination, the Google key and mode
    transit; when the response has status 200 it returns the success record
    with the response's data, the destination's name and the tag
    processCommuteData.  For a configuration without a home it sends
    nothing. *)
Theorem fetchTimeToWork_contract (w : World) (tr : Trace) (config : Config)
    (destination : Destination.t) :
  (forall h,
     homeOf config = inr h ->
     snd (fetchTimeToWork config destination w tr)
     = tr ++ [HttpGet
                {| method := "get";
                   url := "https://maps.googleapis.com/maps/api/directions/json";
                   params :=
                     [("origin", latLon (home_lat h) (home_lon h));
                      ("destination",
                       latLon (Destination.lat destination)
                         (Destination.lon destination));
                      ("key", googleApiKey config);
                      ("mode", "transit")] |}]
     /\ forall response : Response.t,
          nextReply w tr (timeToWorkRequest config h destination)
          = Promise.Fulfilled response ->
          Response.status response = 200 ->
          fetched (fetchTimeToWork config destination w tr)
          = Some {| FetchResult.data := Some (Response.data response);
                    FetchResult.name := Some (Destination.name destination);
                    FetchResult.processor := Some "processCommuteData";
                    FetchResult.success := true;
                    FetchResult.status := None |})
  /\ (forall e,
        homeOf config = inl e ->
        snd (fetchTimeToWork config destination w tr) = tr).
Proof.
  rewrite fetchTimeToWork_run. split.
  - intros h ->. split; [reflexivity |].
    unfold nextReply. intros response Hreply Hstatus.
    rewrite (fetched_andThen _ _ _ _ Hreply).
    unfold timeToWorkResult. apply Z.eqb_eq in Hstatus. now rewrite Hstatus.
  - now intros e ->.
Qed.

Lemma fetchTimeToWork_contract_witness :
  snd (fetchTimeToWork alwaysOn work (at_ mondayAt0800 (answering 200)) [])
  = [HttpGet
       {| method := "get";
          url := "https://maps.googleapis.com/maps/api/directions/json";
          params :=
            [("origin", "38.90,-77.03");
             ("destination", "38.88,-77.10");
             ("key", "google-key");
             ("mode", "transit")] |}]
  /\ fetched
       (fetchTimeToWork alwaysOn work (at_ mondayAt0800 (answering 200)) [])
     = Some {| FetchResult.data := Some emptyPredictions;
               FetchResult.name := Some "Work";
               FetchResult.processor := Some "processCommuteData";
               FetchResult.success := true;
               FetchResult.status := None |}.
Proof.
  destruct (fetchTimeToWork_contract (at_ mondayAt0800 (answering 200)) []
              alwaysOn work) as [Hhome _].
  destruct (Hhome atHome eq_refl) as [Hsent Hresult].
  split.
  - exact Hsent.
  - apply (Hresult (Response.mk 200 emptyPredictions)); reflexivity.
Defined.

(** ** Traces *)

Lemma requestsOf_app (tr tr' : Trace) :
  requestsOf (tr ++ tr') = requestsOf tr ++ requestsOf tr'.
Proof.
  induction tr as [|e tr IH]; simpl; [reflexivity |].
  destruct e; simpl; now rewrite IH.
Qed.

Lemma notificationsOf_app (tr tr' : Trace) :
  notificationsOf (tr ++ tr') = notificationsOf tr ++ notificationsOf tr'.
Proof.
  induction tr as [|e tr IH]; simpl; [reflexivity |].
  destruct e; simpl; now rewrite IH.
Qed.

Lemma logsOf_app (tr tr' : Trace) :
  logsOf (tr ++ tr') = logsOf tr ++ logsOf tr'.
Proof.
  induction tr as [|e tr IH]; simpl; [reflexivity |].
  destruct e; simpl; now rewrite IH.
Qed.

Lemma requestsOf_sent (requests : list AxiosConfig) :
  requestsOf (map HttpGet requests) = requests.
Proof.
  induction requests as [|r rest IH]; simpl; [reflexivity | now rewrite IH].
Qed.

Lemma notificationsOf_sent (requests : list AxiosConfig) :
  notificationsOf (map HttpGet requests) = [].
Proof. induction requests as [|r rest IH]; simpl; auto. Qed.

(** ** Promise.all *)

Section PromiseAll.

Context {A : Type}.
Implicit Types (ps : list (Promise.t A)) (p : Promise.t A).

Lemma firstRejection_member ps (n : nat) (e : JsError) :
  Promise.firstRejection ps = Some (n, e) ->
  exists p, In p ps /\ Promise.settled p = Promise.Rejected e.
Proof.
  revert n e. induction ps as [|p rest IH]; simpl; intros n e; try discriminate.
  destruct (Promise.settled p) as [v|e0|] eqn:Hp.
  - intros H. destruct (IH _ _ H) as [q [Hin Hq]]. exists q. auto.
  - destruct (Promise.firstRejection rest) as [[m e1]|] eqn:Hrest.
    + destruct (Nat.leb (Promise.latency p) m); intros Heq.
      * exists p. split; [now left | congruence].
      * assert (e1 = e) by congruence. subst e1.
        destruct (IH _ _ eq_refl) as [q [Hin Hq]]. exists q. auto.
    + intros Heq. exists p. split; [now left | congruence].
  - intros H. destruct (IH _ _ H) as [q [Hin Hq]]. exists q. auto.
Qed.

Lemma firstRejection_none ps :
  Promise.firstRejection ps = None <->
  forall p e, In p ps -> Promise.settled p <> Promise.Rejected e.
Proof.
  induction ps as [|p rest IH]; simpl.
  - split; [intros _ p e [] | reflexivity].
  - destruct (Promise.settled p) as [v|e0|] eqn:Hp.
    + rewrite IH. split.
      * intros H q e [<- | Hin]; [congruence | now apply H].
      * intros H q e Hin. apply H. now right.
    + split.
      * destruct (Promise.firstRejection rest) as [[m e1]|];
          [destruct (Nat.leb (Promise.latency p) m) |]; discriminate.
      * intros H. exfalso. apply (H p e0); [now left | assumption].
    + rewrite IH. split.
      * intros H q e [<- | Hin]; [congruence | now apply H].
      * intros H q e Hin. apply H. now right.
Qed.

Lemma values_entries ps (vs : list A) :
  Promise.values ps = Some vs ->
  List.length vs = List.length ps
  /\ forall i p, nth_error ps i = Some p ->
       exists v, Promise.settled p = Promise.Fulfilled v
                 /\ nth_error vs i = Some v.
Proof.
  revert vs. induction ps as [|p rest IH]; simpl; intros vs.
  - intros Heq. assert (vs = []) by congruence. subst vs.
    split; [reflexivity |]. intros [|i] q; discriminate.
  - destruct (Promise.settled p) as [v| |] eqn:Hp; try discriminate.
    destruct (Promise.values rest) as [ws|] eqn:Hrest; try discriminate.
    intros Heq. assert (vs = v :: ws) by congruence. subst vs.
    destruct (IH ws eq_refl) as [Hlen Hnth].
    split; [simpl; now rewrite Hlen |].
    intros [|i] q; simpl.
    + intros Hq. assert (q = p) by congruence. subst q. now exists v.
    + apply Hnth.
Qed.

Lemma values_some ps :
  (forall p, In p ps -> exists v, Promise.settled p = Promise.Fulfilled v) ->
  exists vs, Promise.values ps = Some vs.
Proof.
  induction ps as [|p rest IH]; simpl; intros Hall.
  - now exists [].
  - destruct (Hall p) as [v Hv]; [now left |]. rewrite Hv.
    destruct IH as [vs Hvs]; [intros q Hq; apply Hall; now right |].
    rewrite Hvs. now exists (v :: vs).
Qed.

Lemma all_fulfilled_inv ps (vs : list A) :
  Promise.settled (Promise.all ps) = Promise.Fulfilled vs ->
  Promise.values ps = Some vs.
Proof.
  unfold Promise.all.
  destruct (Promise.firstRejection ps) as [[n e]|]; simpl; try discriminate.
  destruct (Promise.values ps) as [ws|]; simpl; try discriminate.
  congruence.
Qed.

Lemma all_rejected_inv ps (e : JsError) :
  Promise.settled (Promise.all ps) = Promise.Rejected e ->
  exists p, In p ps /\ Promise.settled p = Promise.Rejected e.
Proof.
  unfold Promise.all.
  destruct (Promise.firstRejection ps) as [[n e']|] eqn:Hfirst; simpl.
  - intros Heq. assert (e' = e) by congruence. subst e'.
    now apply firstRejection_member with n.
  - destruct (Promise.values ps); simpl; discriminate.
Qed.

(** When every promise is fulfilled, so is [Promise.all]. *)
Lemma all_fulfilled ps :
  (forall p, In p ps -> exists v, Promise.settled p = Promise.Fulfilled v) ->
  exists vs, Promise.settled (Promise.all ps) = Promise.Fulfilled vs.
Proof.
  intros Hall. unfold Promise.all.
  assert (Hnone : Promise.firstRejection ps = None).
  { apply firstRejection_none. intros p e Hin Hrej.
    destruct (Hall p Hin) as [v Hv]. congruence. }
  rewrite Hnone. destruct (values_some ps Hall) as [vs Hvs].
  rewrite Hvs. now exists vs.
Qed.

(** When one promise is rejected, so is [Promise.all]. *)
Lemma all_rejected ps p (e : JsError) :
  In p ps -> Promise.settled p = Promise.Rejected e ->
  exists e', Promise.settled (Promise.all ps) = Promise.Rejected e'.
Proof.
  intros Hin Hrej. unfold Promise.all.
  destruct (Promise.firstRejection ps) as [[n e']|] eqn:Hfirst.
  - now exists e'.
  - exfalso. apply (proj1 (firstRejection_none ps) Hfirst p e Hin Hrej).
Qed.

End PromiseAll.

Lemma promisesFrom_nth (w : World) (calls : list Call) (k i : nat) :
  nth_error (promisesFrom w k calls) i
  = option_map
      (fun c : Call =>
         Promise.andThen (network w (k + i) (call_request c)) (call_after c))
      (nth_error calls i).
Proof.
  revert k i. induction calls as [|c rest IH]; intros k i.
  - now destruct i.
  - destruct i as [|i]; simpl.
    + now rewrite Nat.add_0_r.
    + rewrite IH. now rewrite Nat.add_succ_r.
Qed.


Lemma promisesFrom_length (w : World) (calls : list Call) (k : nat) :
  List.length (promisesFrom w k calls) = List.length calls.
Proof.
  revert k. induction calls as [|c rest IH]; intros k; simpl;
    [reflexivity | now rewrite IH].
Qed.

(** The promise of the call of rank [k] in a batch ends as axios ends that
    call. *)
Lemma batch_promise (w : World) (calls : list Call) (k : nat)
    (request : AxiosConfig) :
  nth_error (map call_request calls) k = Some request ->
  exists after,
    nth_error (promisesFrom w 0 calls) k
    = Some (Promise.andThen (network w k request) after).
Proof.
  intros Hk. rewrite nth_error_map in Hk.
  rewrite promisesFrom_nth.
  destruct (nth_error calls k) as [c|]; try discriminate.
  simpl in Hk. assert (call_request c = request) by congruence. subst request.
  now exists (call_after c).
Qed.

Lemma batch_promise_inv (w : World) (calls : list Call)
    (p : Promise.t FetchResult.t) :
  In p (promisesFrom w 0 calls) ->
  exists k request after,
    nth_error (map call_request calls) k = Some request
    /\ p = Promise.andThen (network w k request) after.
Proof.
  intros Hin. apply In_nth_error in Hin. destruct Hin as [k Hk].
  rewrite promisesFrom_nth in Hk.
  destruct (nth_error calls k) as [c|] eqn:Hcall; try discriminate.
  simpl in Hk. exists k, (call_request c), (call_after c). split.
  - rewrite nth_error_map, Hcall. reflexivity.
  - congruence.
Qed.

(** ** The runs of the entry point *)

Lemma pushTimeToWork_run (payload : Config) (w : World)
    (ds : list Destination.t) :
  forall (requests : list (Promise.t FetchResult.t)) (tr : Trace),
    pushTimeToWork payload ds requests w tr
    = (Returned (requests
                 ++ timeToWorkPromises w payload
                      (List.length (requestsOf tr)) ds),
       tr ++ map HttpGet (timeToWorkRequests payload ds)).
Proof.
  unfold timeToWorkPromises, timeToWorkRequests.
  induction ds as [|d rest IH]; intros requests tr; simpl.
  - unfold ret. destruct (homeOf payload); simpl; now rewrite !app_nil_r.
  - unfold bind. rewrite fetchTimeToWork_run.
    destruct (homeOf payload) as [e | h] eqn:Hhome.
    + rewrite IH. simpl. now rewrite app_nil_r, <- app_assoc.
    + rewrite IH. rewrite requestsOf_app, length_app. simpl.
      rewrite Nat.add_1_r, <- !app_assoc. reflexivity.
Qed.

Lemma closed_run (w : World) (notification : string) (payload : Config) :
  shouldWeFetchCommuteData (clock w) payload = false ->
  run (socketNotificationReceived notification payload) w
  = (Returned tt, [SocketNotification TEAR_DOWN_DOM None]).
Proof.
  intros Hgate. unfold run, socketNotificationReceived.
  unfold bind at 1. unfold moment at 1. now rewrite Hgate.
Qed.

Lemma other_run (w : World) (notification : string) (payload : Config) :
  shouldWeFetchCommuteData (clock w) payload = true ->
  notification <> FETCH_STOP_SCHEDULE ->
  notification <> FETCH_COMMUTE ->
  run (socketNotificationReceived notification payload) w = (Returned tt, []).
Proof.
  intros Hgate Hstop Hcommute. unfold run, socketNotificationReceived.
  unfold bind at 1. unfold moment at 1. rewrite Hgate.
  apply String.eqb_neq in Hstop, Hcommute. now rewrite Hstop, Hcommute.
Qed.

Lemma stop_schedule_run (w : World) (payload : Config) :
  shouldWeFetchCommuteData (clock w) payload = true ->
  run (socketNotificationReceived FETCH_STOP_SCHEDULE payload) w
  = let sent := [HttpGet (stopScheduleRequest payload)] in
    match Promise.settled (network w 0%nat (stopScheduleRequest payload)) with
    | Promise.Fulfilled response =>
        (Returned tt,
         sent ++ [SocketNotification BUS_STOP_DATA
                    (Some (One (stopScheduleResult response)))])
    | Promise.Rejected err =>
        (Returned tt,
         sent ++ [ConsoleLog (LogText "Error firing requests to WMATA API!");
                  ConsoleLog (LogError err)])
    | Promise.Pending => (Suspended, sent)
    end.
Proof.
  intros Hgate. unfold run, socketNotificationReceived.
  unfold bind at 1. unfold moment at 1. rewrite Hgate.
  change (String.eqb FETCH_STOP_SCHEDULE FETCH_STOP_SCHEDULE) with true.
  change (String.eqb FETCH_STOP_SCHEDULE FETCH_COMMUTE) with false.
  cbv iota. unfold bind. rewrite fetchStopSchedule_run.
  unfold tryAwait. rewrite settled_andThen. cbn [app requestsOf List.length].
  destruct (Promise.settled (network w 0%nat (stopScheduleRequest payload)));
    reflexivity.
Qed.

(** A commute invocation with the gate open: the loop throws, or the
    invocation reaches its [await] on [Promise.all]. *)
Lemma commute_run (w : World) (payload : Config) :
  shouldWeFetchCommuteData (clock w) payload = true ->
  run (socketNotificationReceived FETCH_COMMUTE payload) w
  = match commuteDestinations (clock w) payload with
    | inl e => (Threw e, commuteStarted payload)
    | inr ds =>
        let sent := commuteSent (clock w) payload ds in
        match Promise.settled (Promise.all (commutePromises w payload ds)) with
        | Promise.Fulfilled responses =>
            (Returned tt,
             sent ++ [SocketNotification COMMUTE_DATA (Some (Many responses))])
        | Promise.Rejected err =>
            (Returned tt,
             sent ++ [ConsoleLog
                        (LogText "Error firing requests to Google/WMATA APIs!");
                      ConsoleLog (LogError err)])
        | Promise.Pending => (Suspended, sent)
        end
    end.
Proof.
  intros Hgate. unfold run, socketNotificationReceived.
  unfold bind at 1. unfold moment at 1. rewrite Hgate.
  change (String.eqb FETCH_COMMUTE FETCH_STOP_SCHEDULE) with false.
  change (String.eqb FETCH_COMMUTE FETCH_COMMUTE) with true.
  cbv iota. unfold bind at 1. unfold ret at 1.
  unfold bind at 1. unfold console_log at 1, emit at 1.
  unfold bind at 1. rewrite fetchNextBus_run.
  unfold bind at 1. unfold moment at 1.
  unfold bind at 1. unfold commuteSent, commuteDestinations, commutePromises.
  destruct (Moment.minute (clock w) mod 2 =? 0).
  - destruct (destinationsOf payload) as [e | ds]; [reflexivity |].
    rewrite pushTimeToWork_run. simpl.
    unfold bind, tryAwait.
    destruct (Promise.settled (Promise.all _)) as [responses|err|];
      unfold sendSocketNotification, console_log, emit; simpl;
      rewrite <- ?app_assoc; reflexivity.
  - unfold bind at 1. simpl.
    assert (Hnone : timeToWorkPromises w payload 1 [] = []).
    { unfold timeToWorkPromises. now destruct (homeOf payload). }
    rewrite Hnone.
    unfold bind, tryAwait.
    destruct (Promise.settled (Promise.all _)) as [responses|err|];
      unfold sendSocketNotification, console_log, emit; simpl;
      rewrite <- ?app_assoc; reflexivity.
Qed.

Lemma timeToWorkPromises_none (w : World) (payload : Config) (k : nat) :
  timeToWorkPromises w payload k [] = [].
Proof. unfold timeToWorkPromises. now destruct (homeOf payload). Qed.

Lemma timeToWorkRequests_none (payload : Config) :
  timeToWorkRequests payload [] = [].
Proof. unfold timeToWorkRequests. now destruct (homeOf payload). Qed.

(** In an odd minute the loop runs over nothing. *)
Lemma commuteDestinations_odd (now : Z) (payload : Config)
    (ds : list Destination.t) :
  (Moment.minute now mod 2 =? 0) = false ->
  commuteDestinations now payload = inr ds -> ds = [].
Proof.
  unfold commuteDestinations. intros ->. congruence.
Qed.

Lemma commuteSent_requests (now : Z) (payload : Config)
    (ds : list Destination.t) :
  commuteDestinations now payload = inr ds ->
  requestsOf (commuteSent now payload ds) = commuteRequests payload ds.
Proof.
  intros Hds. unfold commuteSent, commuteStarted, commuteRequests.
  destruct (Moment.minute now mod 2 =? 0) eqn:Hminute; simpl.
  - now rewrite requestsOf_sent.
  - rewrite (commuteDestinations_odd now payload ds Hminute Hds).
    now rewrite timeToWorkRequests_none.
Qed.

Lemma commuteSent_notifications (now : Z) (payload : Config)
    (ds : list Destination.t) :
  notificationsOf (commuteSent now payload ds) = [].
Proof.
  unfold commuteSent, commuteStarted.
  destruct (Moment.minute now mod 2 =? 0); simpl; [| reflexivity].
  apply notificationsOf_sent.
Qed.

Lemma commuteSent_logs (now : Z) (payload : Config)
    (ds : list Destination.t) (e : JsError) :
  ~ In (LogError e) (logsOf (commuteSent now payload ds)).
Proof.
  unfold commuteSent, commuteStarted.
  destruct (Moment.minute now mod 2 =? 0); simpl.
  - induction (timeToWorkRequests payload ds) as [|r rest IH]; simpl;
      [| exact IH].
    intros [H | []]. discriminate.
  - intros [H | [H | []]]; discriminate.
Qed.

(** With a home, or with nothing to loop over, the array handed to
    [Promise.all] holds the promises of the calls of the batch. *)
Lemma commute_calls (w : World) (payload : Config) (h : Home)
    (ds : list Destination.t) :
  homeOf payload = inr h \/ ds = [] ->
  commutePromises w payload ds = promisesFrom w 0 (commuteCalls payload h ds)
  /\ commuteRequests payload ds
     = map call_request (commuteCalls payload h ds).
Proof.
  unfold commutePromises, commuteRequests, commuteCalls.
  intros [Hhome | ->].
  - unfold timeToWorkPromises, timeToWorkRequests. rewrite Hhome. simpl.
    now rewrite map_map.
  - now rewrite timeToWorkPromises_none, timeToWorkRequests_none.
Qed.

(** Every promise of the array is that of a request sent, or the rejected
    promise of a commute fetch that could not read the home. *)
Lemma commute_promise_inv (w : World) (payload : Config)
    (ds : list Destination.t) (p : Promise.t FetchResult.t) :
  In p (commutePromises w payload ds) ->
  (exists k request after,
     nth_error (commuteRequests payload ds) k = Some request
     /\ p = Promise.andThen (network w k request) after)
  \/ (exists e,
        homeOf payload = inl e /\ ds <> []
        /\ p = Promise.mk 0%nat (Promise.Rejected e)).
Proof.
  destruct (homeOf payload) as [e | h] eqn:Hhome.
  - unfold commutePromises, commuteRequests, timeToWorkPromises,
      timeToWorkRequests. rewrite Hhome.
    intros [<- | Hin].
    + left. now exists 0%nat, (nextBusRequest payload), nextBusResult.
    + right. exists e. apply in_map_iff in Hin. destruct Hin as [d [<- Hd]].
      repeat split. intros ->. destruct Hd.
  - destruct (commute_calls w payload h ds (or_introl Hhome)) as [-> ->].
    intros Hin. left. now apply batch_promise_inv.
Qed.

(** Every request sent has its promise in the array. *)
Lemma commute_promise_of_request (w : World) (payload : Config)
    (ds : list Destination.t) (k : nat) (request : AxiosConfig) :
  nth_error (commuteRequests payload ds) k = Some request ->
  exists after,
    In (Promise.andThen (network w k request) after)
      (commutePromises w payload ds).
Proof.
  destruct (homeOf payload) as [e | h] eqn:Hhome.
  - unfold commutePromises, commuteRequests, timeToWorkRequests.
    rewrite Hhome. destruct k as [|[|k]]; try discriminate.
    intros Hk. cbn [nth_error] in Hk.
    assert (request = nextBusRequest payload) by congruence. subst request.
    exists nextBusResult. now left.
  - destruct (commute_calls w payload h ds (or_introl Hhome)) as [-> ->].
    intros Hk. destruct (batch_promise w _ _ _ Hk) as [after Hp].
    exists after. now apply nth_error_In with k.
Qed.

(** The four ways an invocation can go. *)
Lemma entry_cases (w : World) (notification : string) (payload : Config) :
  (shouldWeFetchCommuteData (clock w) payload = false
   /\ run (socketNotificationReceived notification payload) w
      = (Returned tt, [SocketNotification TEAR_DOWN_DOM None]))
  \/ (shouldWeFetchCommuteData (clock w) payload = true
      /\ notification = FETCH_STOP_SCHEDULE)
  \/ (shouldWeFetchCommuteData (clock w) payload = true
      /\ notification = FETCH_COMMUTE)
  \/ (shouldWeFetchCommuteData (clock w) payload = true
      /\ notification <> FETCH_STOP_SCHEDULE
      /\ notification <> FETCH_COMMUTE
      /\ run (socketNotificationReceived notification payload) w
         = (Returned tt, [])).
Proof.
  destruct (shouldWeFetchCommuteData (clock w) payload) eqn:Hgate.
  - destruct (String.eqb_spec notification FETCH_STOP_SCHEDULE) as [-> | Hstop];
      [tauto |].
    destruct (String.eqb_spec notification FETCH_COMMUTE) as [-> | Hcommute];
      [tauto |].
    right. right. right. repeat split; try assumption. now apply other_run.
  - left. split; [reflexivity | now apply closed_run].
Qed.

(** The requests of a commute invocation, whatever follows its [await]. *)
Lemma commute_requests (w : World) (payload : Config) :
  shouldWeFetchCommuteData (clock w) payload = true ->
  requestsOf (snd (run (socketNotificationReceived FETCH_COMMUTE payload) w))
  = match commuteDestinations (clock w) payload with
    | inl _ => [nextBusRequest payload]
    | inr ds => commuteRequests payload ds
    end.
Proof.
  intros Hgate. rewrite (commute_run w payload Hgate).
  destruct (commuteDestinations (clock w) payload) as [e | ds] eqn:Hds;
    [reflexivity |].
  cbv zeta.
  destruct (Promise.settled (Promise.all _)); cbn [snd];
    rewrite ?requestsOf_app, (commuteSent_requests _ _ _ Hds);
    simpl; now rewrite ?app_nil_r.
Qed.

(** ** The entry point *)

(** C4: when the gate is closed, a request of either kind sends nothing to
    the network and sends the module one notification, TEAR-DOWN-DOM, without
    a payload. *)
Theorem closed_gate_tears_down (w : World) (notification : string)
    (payload : Config) :
  notification = FETCH_STOP_SCHEDULE \/ notification = FETCH_COMMUTE ->
  shouldWeFetchCommuteData (clock w) payload = false ->
  requestsOf (snd (run (socketNotificationReceived notification payload) w))
  = []
  /\ notificationsOf
       (snd (run (socketNotificationReceived notification payload) w))
     = [("MMM-WmataBusSchedule-TEAR-DOWN-DOM", None)].
Proof.
  intros _ Hgate. rewrite (closed_run w notification payload Hgate).
  split; reflexivity.
Qed.

Lemma closed_gate_tears_down_witness :
  requestsOf
    (snd (run (socketNotificationReceived FETCH_COMMUTE weekdayMorning)
            (at_ saturdayAt0830 (answering 200))))
  = []
  /\ notificationsOf
       (snd (run (socketNotificationReceived FETCH_COMMUTE weekdayMorning)
               (at_ saturdayAt0830 (answering 200))))
     = [("MMM-WmataBusSchedule-TEAR-DOWN-DOM", None)].
Proof.
  apply (closed_gate_tears_down (at_ saturdayAt0830 (answering 200))
           FETCH_COMMUTE weekdayMorning).
  - right. reflexivity.
  - reflexivity.
Defined.

(** C10: a notification of any other kind does nothing at all when the gate
    is open (no request, no notification, no log), and still sends
    TEAR-DOWN-DOM when the gate is closed. *)
Theorem unknown_notification (w : World) (notification : string)
    (payload : Config) :
  notification <> FETCH_STOP_SCHEDULE ->
  notification <> FETCH_COMMUTE ->
  run (socketNotificationReceived notification payload) w
  = (Returned tt,
     if shouldWeFetchCommuteData (clock w) payload
     then []
     else [SocketNotification "MMM-WmataBusSchedule-TEAR-DOWN-DOM" None]).
Proof.
  intros Hstop Hcommute.
  destruct (shouldWeFetchCommuteData (clock w) payload) eqn:Hgate.
  - now apply other_run.
  - now apply closed_run.
Qed.

Lemma unknown_notification_witness :
  run (socketNotificationReceived "MMM-WmataBusSchedule-PING" weekdayMorning)
    (at_ (mondayAt0800 + 1) (answering 200))
  = (Returned tt, [])
  /\ run (socketNotificationReceived "MMM-WmataBusSchedule-PING" weekdayMorning)
       (at_ saturdayAt0830 (answering 200))
     = (Returned tt,
        [SocketNotification "MMM-WmataBusSchedule-TEAR-DOWN-DOM" None]).
Proof.
  split.
  - apply (unknown_notification (at_ (mondayAt0800 + 1) (answering 200))
             "MMM-WmataBusSchedule-PING" weekdayMorning); discriminate.
  - apply (unknown_notification (at_ saturdayAt0830 (answering 200))
             "MMM-WmataBusSchedule-PING" weekdayMorning); discriminate.
Defined.






(** C5, as the specification states it, fails on a payload without places:
    in an even minute the next-bus request is sent and fails, yet its
    exception is neither caught nor logged, because the loop has thrown a
    TypeError of its own before the [try] block is reached. *)
Lemma thrown_fetch_uncaught_counterexample :
  shouldWeFetchCommuteData mondayAt0800 noPlaces = true
  /\ nth_error
       (requestsOf
          (snd (run (socketNotificationReceived FETCH_COMMUTE noPlaces)
                  (at_ mondayAt0800 (failingAt 0)))))
       0
     = Some (nextBusRequest noPlaces)
  /\ ending (fetchNextBus noPlaces (at_ mondayAt0800 (failingAt 0)) [])
     = Some (Promise.Rejected (TransportError "Network Error"))
  /\ fst (run (socketNotificationReceived FETCH_COMMUTE noPlaces)
            (at_ mondayAt0800 (failingAt 0)))
     = Threw (TypeError "destinations")
  /\ logsOf
       (snd (run (socketNotificationReceived FETCH_COMMUTE noPlaces)
               (at_ mondayAt0800 (failingAt 0))))
     = [LogText "We are fetching bus schedule/commute data"].
Proof. repeat split. Qed.

(** C5, amended: in an invocation that gets as far as its [try] block (any
    stop-schedule request, any commute request in an odd minute, and a
    commute request in an even minute whose payload carries places with a
    destination list), when a fetch operation throws (a request that the
    invocation sent fails, or a commute fetch cannot read the home), the
    invocation still returns (the exception is caught), the exception of a
    fetch operation is written to the console, and nothing is sent to the
    module: no data and no part of the batch. *)
Theorem thrown_fetch_drops_batch (w : World) (notification : string)
    (payload : Config) :
  let out := run (socketNotificationReceived notification payload) w in
  (notification = FETCH_COMMUTE ->
   Moment.minute (clock w) mod 2 = 0 ->
   exists ds, destinationsOf payload = inr ds) ->
  (exists k request e,
     nth_error (requestsOf (snd out)) k = Some request
     /\ Promise.settled (network w k request) = Promise.Rejected e)
  \/ (shouldWeFetchCommuteData (clock w) payload = true
      /\ notification = FETCH_COMMUTE
      /\ Moment.minute (clock w) mod 2 = 0
      /\ exists e d ds,
           homeOf payload = inl e /\ destinationsOf payload = inr (d :: ds)) ->
  fst out = Returned tt
  /\ notificationsOf (snd out) = []
  /\ exists e',
       In (LogError e') (logsOf (snd out))
       /\ ((exists k' request',
              nth_error (requestsOf (snd out)) k' = Some request'
              /\ Promise.settled (network w k' request') = Promise.Rejected e')
           \/ homeOf payload = inl e').
Proof.
  intros out. subst out. intros Hready Hthrows.
  destruct (entry_cases w notification payload)
    as [[Hgate Hrun] | [[Hgate ->] | [[Hgate ->] | [Hgate [_ [Hother Hrun]]]]]].
  - exfalso. destruct Hthrows as [[k [request [e [Hk _]]]] | [Hopen _]].
    + rewrite Hrun in Hk. destruct k; discriminate.
    + congruence.
  - destruct Hthrows as [[k [request [e [Hk Hrej]]]] | [_ [Habs _]]];
      [| discriminate].
    revert Hk. rewrite (stop_schedule_run w payload Hgate). cbv zeta.
    destruct (Promise.settled (network w 0%nat (stopScheduleRequest payload)))
      as [response|err|] eqn:Hreply; cbn [fst snd app requestsOf];
      (destruct k as [|[|k]]; try discriminate);
      intros Hk; cbn [nth_error] in Hk;
      assert (request = stopScheduleRequest payload) by congruence;
      subst request; try congruence.
    split; [reflexivity | split; [reflexivity |]].
    exists err. split; [simpl; tauto |]. left.
    now exists 0%nat, (stopScheduleRequest payload).
  - assert (Hds : exists ds, commuteDestinations (clock w) payload = inr ds).
    { unfold commuteDestinations.
      destruct (Z.eqb_spec (Moment.minute (clock w) mod 2) 0) as [Heven | _].
      - now apply Hready.
      - now exists []. }
    destruct Hds as [ds Hds].
    assert (Hrejected : exists e,
               Promise.settled (Promise.all (commutePromises w payload ds))
               = Promise.Rejected e).
    { destruct Hthrows as [[k [request [e [Hk Hrej]]]] | Hhome].
      - rewrite (commute_requests w payload Hgate), Hds in Hk.
        destruct (commute_promise_of_request w payload ds k request Hk)
          as [after Hin].
        apply (all_rejected _ _ e Hin). now rewrite settled_andThen, Hrej.
      - destruct Hhome as [_ [_ [Heven [e [d [rest [Hhome Hdest]]]]]]].
        assert (ds = d :: rest).
        { unfold commuteDestinations in Hds. apply Z.eqb_eq in Heven.
          rewrite Heven in Hds. congruence. }
        subst ds.
        apply (all_rejected _ (Promise.mk 0%nat (Promise.Rejected e)) e);
          [| reflexivity].
        unfold commutePromises, timeToWorkPromises. rewrite Hhome.
        right. now left. }
    destruct Hrejected as [err Hall].
    rewrite (commute_requests w payload Hgate).
    rewrite (commute_run w payload Hgate), Hds. cbv zeta. rewrite Hall.
    cbn [fst snd]. split; [reflexivity | split].
    + now rewrite notificationsOf_app, commuteSent_notifications.
    + exists err. split.
      * rewrite logsOf_app. apply in_or_app. right. simpl. tauto.
      * apply all_rejected_inv in Hall. destruct Hall as [p [Hin Hp]].
        apply commute_promise_inv in Hin.
        destruct Hin as [[k [request [after [Hk ->]]]] | [e [Hhome [_ ->]]]].
        -- left. exists k, request. split; [assumption |].
           rewrite settled_andThen in Hp.
           destruct (Promise.settled (network w k request));
             try discriminate; congruence.
        -- right. simpl in Hp. congruence.
  - exfalso. destruct Hthrows as [[k [request [e [Hk _]]]] | [_ [Habs _]]].
    + rewrite Hrun in Hk. destruct k; discriminate.
    + contradiction.
Qed.

Lemma thrown_fetch_drops_batch_witness :
  fst (run (socketNotificationReceived FETCH_COMMUTE weekdayMorning)
         (at_ (mondayAt0800 + 2 * Moment.msPerMinute) (failingAt 1)))
  = Returned tt
  /\ notificationsOf
       (snd (run (socketNotificationReceived FETCH_COMMUTE weekdayMorning)
               (at_ (mondayAt0800 + 2 * Moment.msPerMinute) (failingAt 1))))
     = [].
Proof.
  destruct (thrown_fetch_drops_batch
              (at_ (mondayAt0800 + 2 * Moment.msPerMinute) (failingAt 1))
              FETCH_COMMUTE weekdayMorning)
    as [Hreturns [Hnothing _]].
  - intros _ _. now exists [work; gym].
  - left. exists 1%nat, (timeToWorkRequest weekdayMorning atHome work),
      (TransportError "Network Error").
    split; reflexivity.
  - split; assumption.
Defined.
(** * Further properties of the helper *)

(** ** The schedule gate, continued *)

Lemma day_range (now : Z) : 0 <= Moment.day now < 7.
Proof. unfold Moment.day. apply Z.mod_pos_bound. lia. Qed.

(** A time that moment cannot read closes the gate. *)
Lemma gate_no_offset (now : Z) (config : Config) (sch : Schedule) :
  schedule config = Some sch ->
  Moment.clockOffset (start (times sch)) = None \/
  Moment.clockOffset (stop (times sch)) = None ->
  shouldWeFetchCommuteData now config = false.
Proof.
  intros Hsch Hbad. unfold shouldWeFetchCommuteData, Moment.parse.
  rewrite Hsch.
  destruct Hbad as [Hbad | Hbad]; rewrite Hbad.
  - simpl. now rewrite andb_false_r.
  - destruct (Moment.clockOffset (start (times sch)));
      simpl; now rewrite andb_false_r.
Qed.

(** When no configured day is one of 0 to 6 (an empty list, or Sunday written
    7), the gate never opens. *)
Theorem gate_no_valid_day (now : Z) (config : Config) (sch : Schedule) :
  schedule config = Some sch ->
  (forall d, In d (days sch) -> d < 0 \/ 6 < d) ->
  shouldWeFetchCommuteData now config = false.
Proof.
  intros Hsch Hdays. unfold shouldWeFetchCommuteData. rewrite Hsch. cbv zeta.
  destruct (includes (days sch) (Moment.day now)) eqn:Hin; [| reflexivity].
  apply includes_In in Hin. apply Hdays in Hin.
  pose proof (day_range now). lia.
Qed.

Lemma gate_no_valid_day_witness :
  shouldWeFetchCommuteData (mondayAt0800 - Moment.msPerDay + 1) misconfigured
  = false.
Proof.
  apply (gate_no_valid_day (mondayAt0800 - Moment.msPerDay + 1) misconfigured
           {| times := {| start := "08:60"; stop := "09:00" |};
              days := [7] |}).
  - reflexivity.
  - intros d [<- | []]. right. lia.
Defined.

(** A start or stop time written with an hour above 24, with a minute above
    59, or as 24 hours and some minutes, closes the gate for good. *)
Theorem gate_overflowing_time (now : Z) (config : Config) (sch : Schedule)
    (h m : Z) :
  schedule config = Some sch ->
  Moment.hourMinute (start (times sch)) = Some (h, m) \/
  Moment.hourMinute (stop (times sch)) = Some (h, m) ->
  24 < h \/ 59 < m \/ (h = 24 /\ m <> 0) ->
  shouldWeFetchCommuteData now config = false.
Proof.
  intros Hsch Hparsed Hover.
  assert (Hov : Moment.overflow h m = true).
  { unfold Moment.overflow. destruct Hover as [Hh | [Hm | [Hh Hm]]].
    - apply Z.ltb_lt in Hh. now rewrite Hh.
    - apply Z.ltb_lt in Hm. rewrite Hm. apply orb_true_r.
    - apply Z.eqb_eq in Hh. apply Z.eqb_neq in Hm. rewrite Hh, Hm.
      simpl. now rewrite orb_true_r. }
  apply (gate_no_offset now config sch Hsch).
  unfold Moment.clockOffset.
  destruct Hparsed as [Hp | Hp]; rewrite Hp, Hov; auto.
Qed.

Lemma gate_overflowing_time_witness :
  shouldWeFetchCommuteData (mondayAt0800 + 30 * Moment.msPerMinute)
    {| busStopId := "1001"; wmataApiKey := "wmata-key";
       googleApiKey := "google-key";
       schedule :=
         Some {| times := {| start := "08:00"; stop := "08:60" |};
                 days := [1; 2; 3; 4; 5] |};
       places := places weekdayMorning |}
  = false.
Proof.
  apply (gate_overflowing_time (mondayAt0800 + 30 * Moment.msPerMinute) _
           {| times := {| start := "08:00"; stop := "08:60" |};
              days := [1; 2; 3; 4; 5] |} 8 60).
  - reflexivity.
  - right. reflexivity.
  - right. left. lia.
Defined.

(** With start 00:00 and stop 24:00 the gate is open on a configured day at
    every instant but one: the very first millisecond of the day. *)
Theorem gate_whole_day (now : Z) (config : Config) (sch : Schedule) :
  schedule config = Some sch ->
  start (times sch) = "00:00" ->
  stop (times sch) = "24:00" ->
  (shouldWeFetchCommuteData now config = true <->
   In (Moment.day now) (days sch) /\ Moment.timeOfDay now <> 0).
Proof.
  intros Hsch Hstart Hstop.
  rewrite (gate_scheduled now config sch Hsch 0 Moment.msPerDay)
    by (rewrite ?Hstart, ?Hstop; reflexivity).
  pose proof (timeOfDay_range now) as Hrange.
  split.
  - intros Hopen. apply andb_prop in Hopen. destruct Hopen as [Hday Hwin].
    apply andb_prop in Hwin. destruct Hwin as [Hlo _].
    apply includes_In in Hday. apply Z.ltb_lt in Hlo. split; [assumption | lia].
  - intros [Hday Hnot]. apply includes_In in Hday. rewrite Hday.
    assert (Hlo : (0 <? Moment.timeOfDay now) = true) by (apply Z.ltb_lt; lia).
    assert (Hhi : (Moment.timeOfDay now <? Moment.msPerDay) = true)
      by (apply Z.ltb_lt; lia).
    now rewrite Hlo, Hhi.
Qed.

Lemma gate_whole_day_witness :
  shouldWeFetchCommuteData (4 * Moment.msPerDay) wholeDay = true <->
  In (Moment.day (4 * Moment.msPerDay)) [0; 1; 2; 3; 4; 5; 6]
  /\ Moment.timeOfDay (4 * Moment.msPerDay) <> 0.
Proof.
  apply (gate_whole_day (4 * Moment.msPerDay) wholeDay
           {| times := {| start := "00:00"; stop := "24:00" |};
              days := [0; 1; 2; 3; 4; 5; 6] |}); reflexivity.
Defined.


(** ** The fetch operations, continued *)

(** A fetch operation has no handler of its own: when its request fails, its
    promise is rejected with the very error of the request and there is no
    fetch result; when its request never ends, neither does its promise.
    A commute fetch that cannot read the home sends nothing and hands back a
    promise rejected with the TypeError of that read. *)
Theorem fetch_failure_passes_through (w : World) (tr : Trace)
    (config : Config) (destination : Destination.t) :
  (forall e,
     nextReply w tr (nextBusRequest config) = Promise.Rejected e ->
     ending (fetchNextBus config w tr) = Some (Promise.Rejected e)
     /\ fetched (fetchNextBus config w tr) = None)
  /\ (forall e,
        nextReply w tr (stopScheduleRequest config) = Promise.Rejected e ->
        ending (fetchStopSchedule config w tr) = Some (Promise.Rejected e)
        /\ fetched (fetchStopSchedule config w tr) = None)
  /\ (forall h e,
        homeOf config = inr h ->
        nextReply w tr (timeToWorkRequest config h destination)
        = Promise.Rejected e ->
        ending (fetchTimeToWork config destination w tr)
        = Some (Promise.Rejected e)
        /\ fetched (fetchTimeToWork config destination w tr) = None)
  /\ (nextReply w tr (nextBusRequest config) = Promise.Pending ->
      ending (fetchNextBus config w tr) = Some Promise.Pending)
  /\ (nextReply w tr (stopScheduleRequest config) = Promise.Pending ->
      ending (fetchStopSchedule config w tr) = Some Promise.Pending)
  /\ (forall h,
        homeOf config = inr h ->
        nextReply w tr (timeToWorkRequest config h destination)
        = Promise.Pending ->
        ending (fetchTimeToWork config destination w tr)
        = Some Promise.Pending)
  /\ (forall e,
        homeOf config = inl e ->
        fetchTimeToWork config destination w tr
        = (Returned (Promise.mk 0%nat (Promise.Rejected e)), tr)).
Proof.
  unfold nextReply, fetched, ending.
  rewrite fetchNextBus_run, fetchStopSchedule_run, fetchTimeToWork_run.
  cbn [fst]. rewrite !settled_andThen.
  repeat split; intros;
    repeat match goal with
    | H : homeOf _ = _ |- _ => rewrite H; clear H
    end;
    cbn [fst]; rewrite ?settled_andThen;
    try match goal with H : Promise.settled _ = _ |- _ => now rewrite H end;
    reflexivity.
Qed.

Lemma fetch_failure_passes_through_witness :
  fetched (fetchTimeToWork alwaysOn work (at_ mondayAt0800 (failingAt 0)) [])
  = None
  /\ ending (fetchNextBus alwaysOn (at_ mondayAt0800 (hangingAt 0)) [])
     = Some Promise.Pending
  /\ fetchTimeToWork noHome work (at_ mondayAt0800 (answering 200)) []
     = (Returned (Promise.mk 0%nat (Promise.Rejected (TypeError "lat"))), []).
Proof.
  pose proof (fetch_failure_passes_through (at_ mondayAt0800 (failingAt 0)) []
                alwaysOn work) as [_ [_ [Hwork _]]].
  pose proof (fetch_failure_passes_through (at_ mondayAt0800 (hangingAt 0)) []
                alwaysOn work) as [_ [_ [_ [Hnext _]]]].
  pose proof (fetch_failure_passes_through (at_ mondayAt0800 (answering 200)) []
                noHome work) as [_ [_ [_ [_ [_ [_ Hhome]]]]]].
  split; [| split].
  - apply (Hwork atHome (TransportError "Network Error")); reflexivity.
  - apply Hnext. reflexivity.
  - apply Hhome. reflexivity.
Defined.

(** ** The entry point, continued *)

(** With the gate open, a FETCH_STOP_SCHEDULE request sends its one request
    and, when a response comes back, goes by its status: with a status from
    200 to 299 it delivers BUS_STOP_DATA and logs nothing, the success record
    for 200 and the failure record with the status otherwise; with any other
    status of HTTP, 404 or 500 for one, it delivers nothing and logs the error that
    axios threw. *)
Theorem stop_schedule_by_status (w : World) (payload : Config)
    (response : Response.t) :
  shouldWeFetchCommuteData (clock w) payload = true ->
  Promise.settled
    (server w 0%nat
       {| method := "get";
          url := "https://api.wmata.com/Bus.svc/json/jStopSchedule";
          params := [("StopID", busStopId payload);
                     ("api_key", wmataApiKey payload)] |})
  = Promise.Fulfilled response ->
  (200 <= Response.status response < 300 ->
   run (socketNotificationReceived FETCH_STOP_SCHEDULE payload) w
   = (Returned tt,
      [HttpGet
         {| method := "get";
            url := "https://api.wmata.com/Bus.svc/json/jStopSchedule";
            params := [("StopID", busStopId payload);
                       ("api_key", wmataApiKey payload)] |};
       SocketNotification "MMM-WmataBusSchedule-BUS_STOP_DATA"
         (Some (One
            (if Response.status response =? 200
             then {| FetchResult.data := Some (Response.data response);
                     FetchResult.name := None;
                     FetchResult.processor := Some "processStopData";
                     FetchResult.success := true;
                     FetchResult.status := None |}
             else {| FetchResult.data := None;
                     FetchResult.name := None;
                     FetchResult.processor := None;
                     FetchResult.success := false;
                     FetchResult.status :=
                       Some (Response.status response) |})))]))
  /\ (100 <= Response.status response < 200
      \/ 300 <= Response.status response ->
      run (socketNotificationReceived FETCH_STOP_SCHEDULE payload) w
      = (Returned tt,
         [HttpGet
            {| method := "get";
               url := "https://api.wmata.com/Bus.svc/json/jStopSchedule";
               params := [("StopID", busStopId payload);
                          ("api_key", wmataApiKey payload)] |};
          ConsoleLog (LogText "Error firing requests to WMATA API!");
          ConsoleLog (LogError (StatusError response))])).
Proof.
  intros Hgate Hback. rewrite (stop_schedule_run w payload Hgate). cbv zeta.
  change (stopScheduleRequest payload)
    with {| method := "get";
            url := "https://api.wmata.com/Bus.svc/json/jStopSchedule";
            params := [("StopID", busStopId payload);
                       ("api_key", wmataApiKey payload)] |}.
  rewrite settled_network, Hback. split; intros Hstatus.
  - now rewrite passes_true.
  - now rewrite passes_false.
Qed.

Lemma stop_schedule_by_status_witness :
  notificationsOf
    (snd (run (socketNotificationReceived FETCH_STOP_SCHEDULE alwaysOn)
            (at_ mondayAt0800 (answering 204))))
  = [("MMM-WmataBusSchedule-BUS_STOP_DATA",
      Some (One {| FetchResult.data := None;
                   FetchResult.name := None;
                   FetchResult.processor := None;
                   FetchResult.success := false;
                   FetchResult.status := Some 204 |}))]
  /\ notificationsOf
       (snd (run (socketNotificationReceived FETCH_STOP_SCHEDULE alwaysOn)
               (at_ mondayAt0800 (answering 500))))
     = [].
Proof.
  split.
  - rewrite (proj1 (stop_schedule_by_status
                      (at_ mondayAt0800 (answering 204)) alwaysOn
                      (Response.mk 204 emptyPredictions) eq_refl eq_refl));
      [reflexivity | simpl; lia].
  - rewrite (proj2 (stop_schedule_by_status
                      (at_ mondayAt0800 (answering 500)) alwaysOn
                      (Response.mk 500 emptyPredictions) eq_refl eq_refl));
      [reflexivity | simpl; lia].
Defined.

(** An invocation sends the module at most one notification, and which one
    is settled by the gate and the kind of the request: TEAR-DOWN-DOM without
    payload and without any request when the gate is closed, BUS_STOP_DATA
    with one result for a stop-schedule request, COMMUTE_DATA with a list for
    a commute request. *)
Theorem one_notification_by_kind (w : World) (notification : string)
    (payload : Config) :
  let tr := snd (run (socketNotificationReceived notification payload) w) in
  (List.length (notificationsOf tr) <= 1)%nat
  /\ forall name delivered,
       In (name, delivered) (notificationsOf tr) ->
       (shouldWeFetchCommuteData (clock w) payload = false
        /\ name = TEAR_DOWN_DOM /\ delivered = None /\ requestsOf tr = [])
       \/ (shouldWeFetchCommuteData (clock w) payload = true
           /\ notification = FETCH_STOP_SCHEDULE
           /\ name = BUS_STOP_DATA /\ exists r, delivered = Some (One r))
       \/ (shouldWeFetchCommuteData (clock w) payload = true
           /\ notification = FETCH_COMMUTE
           /\ name = COMMUTE_DATA /\ exists rs, delivered = Some (Many rs)).
Proof.
  cbv zeta.
  destruct (entry_cases w notification payload)
    as [[Hgate Hrun] | [[Hgate ->] | [[Hgate ->] | [Hgate [_ [_ Hrun]]]]]].
  - rewrite Hrun. simpl. split; [lia |].
    intros name delivered [Heq | []]. left.
    repeat split; congruence.
  - rewrite (stop_schedule_run w payload Hgate). cbv zeta.
    destruct (Promise.settled _) as [response|err|]; simpl;
      (split; [lia |]); intros name delivered Hin.
    + destruct Hin as [Heq | []]. right. left.
      repeat split; try congruence.
      exists (stopScheduleResult response). congruence.
    + destruct Hin.
    + destruct Hin.
  - rewrite (commute_run w payload Hgate).
    destruct (commuteDestinations (clock w) payload) as [e | ds].
    { simpl. split; [lia |]. intros name delivered []. }
    cbv zeta.
    destruct (Promise.settled _) as [rs|err|]; cbn [snd];
      rewrite ?notificationsOf_app, ?commuteSent_notifications; simpl;
      (split; [lia |]); intros name delivered Hin.
    + destruct Hin as [Heq | []]. right. right.
      repeat split; try congruence. exists rs. congruence.
    + destruct Hin.
    + destruct Hin.
  - rewrite Hrun. simpl. split; [lia |]. intros name delivered [].
Qed.

Lemma one_notification_by_kind_witness :
  (shouldWeFetchCommuteData saturdayAt0830 weekdayMorning = false
   /\ TEAR_DOWN_DOM = TEAR_DOWN_DOM /\ @None Payload = None
   /\ requestsOf
        (snd (run (socketNotificationReceived FETCH_COMMUTE weekdayMorning)
                (at_ saturdayAt0830 (answering 200))))
      = [])
  \/ (shouldWeFetchCommuteData saturdayAt0830 weekdayMorning = true
      /\ FETCH_COMMUTE = FETCH_STOP_SCHEDULE
      /\ TEAR_DOWN_DOM = BUS_STOP_DATA
      /\ exists r, @None Payload = Some (One r))
  \/ (shouldWeFetchCommuteData saturdayAt0830 weekdayMorning = true
      /\ FETCH_COMMUTE = FETCH_COMMUTE
      /\ TEAR_DOWN_DOM = COMMUTE_DATA
      /\ exists rs, @None Payload = Some (Many rs)).
Proof.
  apply (one_notification_by_kind (at_ saturdayAt0830 (answering 200))
           FETCH_COMMUTE weekdayMorning).
  simpl. left. reflexivity.
Defined.

(** Every request that an invocation sends is a GET built from the payload:
    to the WMATA stop-schedule or predictions address with the stop and the
    WMATA key, or, for a commute request in an even minute, to the Google
    directions address with the configured home, a configured destination
    and the Google key.  Nothing is sent while the gate is closed. *)
Theorem requests_built_from_payload (w : World) (notification : string)
    (payload : Config) (request : AxiosConfig) :
  In request
    (requestsOf (snd (run (socketNotificationReceived notification payload) w))) ->
  shouldWeFetchCommuteData (clock w) payload = true
  /\ method request = "get"
  /\ ((notification = FETCH_STOP_SCHEDULE
       /\ url request = "https://api.wmata.com/Bus.svc/json/jStopSchedule"
       /\ params request = [("StopID", busStopId payload);
                            ("api_key", wmataApiKey payload)])
      \/ (notification = FETCH_COMMUTE
          /\ url request
             = "https://api.wmata.com/NextBusService.svc/json/jPredictions"
          /\ params request = [("StopID", busStopId payload);
                               ("api_key", wmataApiKey payload)])
      \/ (notification = FETCH_COMMUTE
          /\ Moment.minute (clock w) mod 2 = 0
          /\ url request
             = "https://maps.googleapis.com/maps/api/directions/json"
          /\ exists h ds d,
               places payload
               = Some {| home := Some h; destinations := Some ds |}
               /\ In d ds
               /\ params request
                  = [("origin", latLon (home_lat h) (home_lon h));
                     ("destination",
                      latLon (Destination.lat d) (Destination.lon d));
                     ("key", googleApiKey payload);
                     ("mode", "transit")])).
Proof.
  destruct (entry_cases w notification payload)
    as [[Hgate Hrun] | [[Hgate ->] | [[Hgate ->] | [Hgate [_ [_ Hrun]]]]]].
  - rewrite Hrun. intros [].
  - assert (Hsent : requestsOf
                      (snd (run (socketNotificationReceived
                                   FETCH_STOP_SCHEDULE payload) w))
                    = [stopScheduleRequest payload]).
    { rewrite (stop_schedule_run w payload Hgate). cbv zeta.
      now destruct (Promise.settled _). }
    rewrite Hsent. intros [<- | []].
    split; [assumption | split; [reflexivity |]]. left. now repeat split.
  - rewrite (commute_requests w payload Hgate). intros Hin.
    assert (Hwhich :
              request = nextBusRequest payload
              \/ (Moment.minute (clock w) mod 2 = 0
                  /\ exists h ds d,
                       places payload
                       = Some {| home := Some h; destinations := Some ds |}
                       /\ In d ds
                       /\ request = timeToWorkRequest payload h d)).
    { unfold commuteDestinations in Hin.
      destruct (Z.eqb_spec (Moment.minute (clock w) mod 2) 0) as [Heven | _].
      - unfold destinationsOf, commuteRequests, timeToWorkRequests, homeOf
          in Hin.
        destruct (places payload) as [[[h|] [ds|]]|] eqn:Hplaces;
          destruct Hin as [<- | Hin]; try (now left); try (destruct Hin; fail).
        apply in_map_iff in Hin. destruct Hin as [d [<- Hd]].
        right. split; [assumption |]. now exists h, ds, d.
      - unfold commuteRequests in Hin.
        rewrite timeToWorkRequests_none in Hin.
        destruct Hin as [<- | []]. now left. }
    split; [assumption |].
    destruct Hwhich as [-> | [Heven [h [ds [d [Hplaces [Hd ->]]]]]]].
    + split; [reflexivity |]. right. left. now repeat split.
    + split; [reflexivity |]. right. right.
      repeat split; try assumption. now exists h, ds, d.
  - rewrite Hrun. intros [].
Qed.

Lemma requests_built_from_payload_witness :
  shouldWeFetchCommuteData (mondayAt0800 + 2 * Moment.msPerMinute)
    weekdayMorning = true
  /\ method (timeToWorkRequest weekdayMorning atHome work) = "get".
Proof.
  destruct (requests_built_from_payload
              (at_ (mondayAt0800 + 2 * Moment.msPerMinute) (answering 200))
              FETCH_COMMUTE weekdayMorning
              (timeToWorkRequest weekdayMorning atHome work))
    as [Hgate [Hmethod _]].
  - simpl. right. left. reflexivity.
  - split; assumption.
Defined.

(** The code after the [await] of every call of a batch marks the result a
    success exactly on status 200 and otherwise keeps the status. *)
Lemma batch_result_status (payload : Config) (h : Home)
    (ds : list Destination.t) (c : Call) (response : Response.t) :
  In c (commuteCalls payload h ds) ->
  FetchResult.success (call_after c response)
  = (Response.status response =? 200)
  /\ FetchResult.status (call_after c response)
     = if Response.status response =? 200
       then None
       else Some (Response.status response).
Proof.
  intros [<- | Hin].
  - simpl. unfold nextBusResult.
    now destruct (Response.status response =? 200).
  - apply in_map_iff in Hin. destruct Hin as [d [<- _]].
    simpl. unfold timeToWorkResult.
    now destruct (Response.status response =? 200).
Qed.

(** A commute invocation that is ready gets to its [await] with the promises
    of the calls of some batch. *)
Lemma ready_calls (w : World) (payload : Config) :
  ready (clock w) payload ->
  exists ds h,
    commuteDestinations (clock w) payload = inr ds
    /\ commutePromises w payload ds
       = promisesFrom w 0 (commuteCalls payload h ds)
    /\ commuteRequests payload ds
       = map call_request (commuteCalls payload h ds).
Proof.
  unfold ready, commuteDestinations.
  destruct (Z.eqb_spec (Moment.minute (clock w) mod 2) 0) as [Heven | Hodd].
  - intros [Hodd | [h [ds Hplaces]]]; [contradiction |].
    exists ds, h. split.
    + unfold destinationsOf. now rewrite Hplaces.
    + apply commute_calls. left. unfold homeOf. now rewrite Hplaces.
  - intros _. exists [], {| home_lat := ""; home_lon := "" |}.
    split; [reflexivity |]. apply commute_calls. now right.
Qed.

(** When every request of a commute invocation that is ready comes back with
    a status from 200 to 299, COMMUTE_DATA is delivered and no error is
    logged: the list has one entry per request, and entry [k] is the result
    of request [k], a success exactly when that response has status 200 and
    otherwise a failure carrying its status.  A status from 201 to 299 does
    not drop the batch. *)
Theorem commute_delivers_when_answered (w : World) (payload : Config) :
  let out := run (socketNotificationReceived FETCH_COMMUTE payload) w in
  shouldWeFetchCommuteData (clock w) payload = true ->
  ready (clock w) payload ->
  (forall k request,
     nth_error (requestsOf (snd out)) k = Some request ->
     exists response,
       Promise.settled (server w k request) = Promise.Fulfilled response
       /\ 200 <= Response.status response < 300) ->
  fst out = Returned tt
  /\ (forall e, ~ In (LogError e) (logsOf (snd out)))
  /\ exists rs,
       notificationsOf (snd out) = [(COMMUTE_DATA, Some (Many rs))]
       /\ List.length rs = List.length (requestsOf (snd out))
       /\ forall k request response,
            nth_error (requestsOf (snd out)) k = Some request ->
            Promise.settled (server w k request)
            = Promise.Fulfilled response ->
            exists r,
              nth_error rs k = Some r
              /\ FetchResult.success r = (Response.status response =? 200)
              /\ FetchResult.status r
                 = if Response.status response =? 200
                   then None
                   else Some (Response.status response).
Proof.
  intros out Hgate Hready. subst out.
  destruct (ready_calls w payload Hready)
    as [ds [h [Hds [Hpromises Hrequests]]]].
  rewrite (commute_requests w payload Hgate), Hds, Hrequests.
  set (calls := commuteCalls payload h ds).
  intros Hanswered.
  assert (Haccepted : forall k request,
             nth_error (map call_request calls) k = Some request ->
             forall response,
               Promise.settled (server w k request)
               = Promise.Fulfilled response ->
               Promise.settled (network w k request)
               = Promise.Fulfilled response).
  { intros k request Hk response Hback.
    destruct (Hanswered k request Hk) as [response' [Hback' Hstatus]].
    assert (response' = response) by congruence. subst response'.
    now rewrite settled_network, Hback, passes_true. }
  destruct (all_fulfilled (promisesFrom w 0 calls)) as [rs Hall].
  { intros p Hin. apply batch_promise_inv in Hin.
    destruct Hin as [k [request [after [Hk ->]]]].
    destruct (Hanswered k request Hk) as [response [Hback _]].
    exists (after response).
    now rewrite settled_andThen, (Haccepted k request Hk response Hback). }
  rewrite (commute_run w payload Hgate), Hds. cbv zeta.
  rewrite Hpromises. fold calls. rewrite Hall.
  cbn [fst snd]. split; [reflexivity | split].
  - intros e. rewrite logsOf_app. intros Hin. apply in_app_or in Hin.
    destruct Hin as [Hin | []]. now apply commuteSent_logs in Hin.
  - exists rs. rewrite notificationsOf_app, commuteSent_notifications.
    split; [reflexivity |].
    apply all_fulfilled_inv, values_entries in Hall.
    destruct Hall as [Hlen Hnth].
    split; [now rewrite Hlen, promisesFrom_length, length_map |].
    intros k request response Hk Hback.
    pose proof (Haccepted k request Hk response Hback) as Hreply.
    rewrite nth_error_map in Hk.
    destruct (nth_error calls k) as [c|] eqn:Hc; try discriminate.
    simpl in Hk. assert (call_request c = request) by congruence.
    subst request.
    assert (Hp : nth_error (promisesFrom w 0 calls) k
                 = Some (Promise.andThen (network w k (call_request c))
                           (call_after c)))
      by (now rewrite promisesFrom_nth, Hc).
    destruct (Hnth _ _ Hp) as [v [Hv Hrs]].
    rewrite settled_andThen, Hreply in Hv.
    assert (v = call_after c response) by congruence. subst v.
    exists (call_after c response). split; [assumption |].
    apply (batch_result_status payload h ds).
    now apply nth_error_In with k.
Qed.

Lemma commute_delivers_when_answered_witness :
  fst (run (socketNotificationReceived FETCH_COMMUTE alwaysOn)
         (at_ mondayAt0800 (answering 204)))
  = Returned tt.
Proof.
  apply (commute_delivers_when_answered (at_ mondayAt0800 (answering 204))
           alwaysOn).
  - reflexivity.
  - right. now exists atHome, [work; gym].
  - intros k request _. exists (Response.mk 204 emptyPredictions).
    split; [reflexivity | simpl; lia].
Defined.

Lemma values_none_of_pending {A : Type} (ps : list (Promise.t A))
    (p : Promise.t A) :
  In p ps -> Promise.settled p = Promise.Pending -> Promise.values ps = None.
Proof.
  induction ps as [|q rest IH]; simpl; intros Hin Hp; [destruct Hin |].
  destruct Hin as [-> | Hin].
  - now rewrite Hp.
  - rewrite (IH Hin Hp). now destruct (Promise.settled q).
Qed.

(** There is no time limit: in an invocation that gets as far as its [try]
    block, when a request that was sent never ends and none of the requests
    fails, the invocation never returns; it sends the module nothing, not
    even a tear-down, and logs no error. *)
Theorem hung_request_never_returns (w : World) (notification : string)
    (payload : Config) (k : nat) (request : AxiosConfig) :
  let out := run (socketNotificationReceived notification payload) w in
  (notification = FETCH_COMMUTE -> ready (clock w) payload) ->
  nth_error (requestsOf (snd out)) k = Some request ->
  Promise.settled (network w k request) = Promise.Pending ->
  (forall k' request' e,
     nth_error (requestsOf (snd out)) k' = Some request' ->
     Promise.settled (network w k' request') <> Promise.Rejected e) ->
  fst out = Suspended
  /\ notificationsOf (snd out) = []
  /\ forall e, ~ In (LogError e) (logsOf (snd out)).
Proof.
  intros out. subst out. intros Hready.
  destruct (entry_cases w notification payload)
    as [[Hgate Hrun] | [[Hgate ->] | [[Hgate ->] | [Hgate [_ [_ Hrun]]]]]].
  - rewrite Hrun. destruct k; discriminate.
  - rewrite (stop_schedule_run w payload Hgate). cbv zeta.
    destruct (Promise.settled (network w 0%nat (stopScheduleRequest payload)))
      as [response|err|] eqn:Hreply; cbn [fst snd app requestsOf];
      (destruct k as [|[|k]]; try discriminate);
      intros Hk; cbn [nth_error] in Hk;
      assert (request = stopScheduleRequest payload) by congruence;
      subst request; intros Hpending Hnone; try congruence.
    split; [reflexivity | split; [reflexivity |]].
    intros e [].
  - destruct (ready_calls w payload (Hready eq_refl))
      as [ds [h [Hds [Hpromises Hrequests]]]].
    rewrite (commute_requests w payload Hgate), Hds, Hrequests.
    set (calls := commuteCalls payload h ds).
    intros Hk Hpending Hnone.
    assert (Hall : Promise.settled (Promise.all (promisesFrom w 0 calls))
                   = Promise.Pending).
    { unfold Promise.all.
      assert (Hfirst : Promise.firstRejection (promisesFrom w 0 calls) = None).
      { apply firstRejection_none. intros p e Hin Hrej.
        apply batch_promise_inv in Hin.
        destruct Hin as [k' [request' [after [Hk' ->]]]].
        rewrite settled_andThen in Hrej.
        destruct (Promise.settled (network w k' request')) eqn:Hreply;
          try discriminate.
        apply (Hnone k' request' e0 Hk'). congruence. }
      rewrite Hfirst.
      destruct (batch_promise w calls k request Hk) as [after Hp].
      apply nth_error_In in Hp.
      rewrite (values_none_of_pending _ _ Hp); [reflexivity |].
      now rewrite settled_andThen, Hpending. }
    rewrite (commute_run w payload Hgate), Hds. cbv zeta.
    rewrite Hpromises. fold calls. rewrite Hall.
    cbn [fst snd]. split; [reflexivity | split].
    + apply commuteSent_notifications.
    + intros e. apply commuteSent_logs.
  - rewrite Hrun. destruct k; discriminate.
Qed.

Lemma hung_request_never_returns_witness :
  fst (run (socketNotificationReceived FETCH_COMMUTE alwaysOn)
         (at_ mondayAt0800 (hangingAt 1)))
  = Suspended
  /\ notificationsOf
       (snd (run (socketNotificationReceived FETCH_COMMUTE alwaysOn)
               (at_ mondayAt0800 (hangingAt 1))))
     = [].
Proof.
  destruct (hung_request_never_returns (at_ mondayAt0800 (hangingAt 1))
              FETCH_COMMUTE alwaysOn 1%nat
              (timeToWorkRequest alwaysOn atHome work))
    as [Hreturn [Hnothing _]].
  - intros _. right. now exists atHome, [work; gym].
  - reflexivity.
  - reflexivity.
  - intros [|[|[|k']]] request' e Hk'; try discriminate;
      vm_compute in Hk'; injection Hk' as <-; discriminate.
  - split; assumption.
Defined.

(** An error is written to the console only when a fetch operation threw it:
    it is the very error that a request sent by the invocation failed with,
    or, for a commute request in an even minute, the TypeError of a commute
    fetch that could not read the home.  The invocation then returns and
    sends the module nothing. *)
Theorem logged_error_is_real (w : World) (notification : string)
    (payload : Config) (e : JsError) :
  let out := run (socketNotificationReceived notification payload) w in
  In (LogError e) (logsOf (snd out)) ->
  fst out = Returned tt
  /\ notificationsOf (snd out) = []
  /\ ((exists k request,
         nth_error (requestsOf (snd out)) k = Some request
         /\ Promise.settled (network w k request) = Promise.Rejected e)
      \/ (notification = FETCH_COMMUTE
          /\ Moment.minute (clock w) mod 2 = 0
          /\ homeOf payload = inl e)).
Proof.
  intros out. subst out.
  destruct (entry_cases w notification payload)
    as [[Hgate Hrun] | [[Hgate ->] | [[Hgate ->] | [Hgate [_ [_ Hrun]]]]]].
  - rewrite Hrun. intros [].
  - rewrite (stop_schedule_run w payload Hgate). cbv zeta.
    destruct (Promise.settled (network w 0%nat (stopScheduleRequest payload)))
      as [response|err|] eqn:Hreply; simpl; intros Hin;
      try (destruct Hin; fail).
    destruct Hin as [Hin | [Hin | []]]; try discriminate.
    assert (err = e) by congruence. subst err.
    split; [reflexivity | split; [reflexivity |]].
    left. now exists 0%nat, (stopScheduleRequest payload).
  - rewrite (commute_requests w payload Hgate).
    rewrite (commute_run w payload Hgate).
    destruct (commuteDestinations (clock w) payload) as [thrown | ds] eqn:Hds.
    { simpl. intros [Hin | []]. discriminate. }
    cbv zeta.
    destruct (Promise.settled (Promise.all (commutePromises w payload ds)))
      as [rs|err|] eqn:Hall; cbn [fst snd]; rewrite ?logsOf_app; intros Hin;
      try apply in_app_or in Hin.
    + destruct Hin as [Hin | []]. now apply commuteSent_logs in Hin.
    + destruct Hin as [Hin | Hin]; [now apply commuteSent_logs in Hin |].
      simpl in Hin. destruct Hin as [Hin | [Hin | []]]; try discriminate.
      assert (err = e) by congruence. subst err.
      split; [reflexivity | split].
      * now rewrite notificationsOf_app, commuteSent_notifications.
      * apply all_rejected_inv in Hall. destruct Hall as [p [Hin' Hp]].
        apply commute_promise_inv in Hin'.
        destruct Hin' as [[k [request [after [Hk ->]]]]
                         | [e0 [Hhome [Hsome ->]]]].
        -- left. exists k, request. split; [assumption |].
           rewrite settled_andThen in Hp.
           destruct (Promise.settled (network w k request));
             try discriminate; congruence.
        -- right. simpl in Hp. assert (e0 = e) by congruence. subst e0.
           repeat split; try assumption.
           unfold commuteDestinations in Hds.
           destruct (Z.eqb_spec (Moment.minute (clock w) mod 2) 0)
             as [Heven | _]; [assumption |].
           exfalso. apply Hsome. congruence.
    + now apply commuteSent_logs in Hin.
  - rewrite Hrun. intros [].
Qed.

Lemma logged_error_is_real_witness :
  fst (run (socketNotificationReceived FETCH_STOP_SCHEDULE alwaysOn)
         (at_ mondayAt0800 (answering 404)))
  = Returned tt
  /\ notificationsOf
       (snd (run (socketNotificationReceived FETCH_STOP_SCHEDULE alwaysOn)
               (at_ mondayAt0800 (answering 404))))
     = [].
Proof.
  destruct (logged_error_is_real (at_ mondayAt0800 (answering 404))
              FETCH_STOP_SCHEDULE alwaysOn
              (StatusError (Response.mk 404 emptyPredictions)))
    as [Hreturn [Hnothing _]].
  - simpl. right. left. reflexivity.
  - split; assumption.
Defined.
